(** * Authenticated request execution of the Manta storage client

    A shallow embedding of [storage.executeRequest] and
    [storage.executeRequestNoEncode] (package [storage] of triton-go), with
    the properties of the request path stated and proved over it.

    Go strings are [string] (sequences of 8-bit characters), byte slices
    and stream contents are [list byte], [int] status codes are [Z], Go
    maps ([http.Header], [url.Values]) are [gmap string (list string)],
    and nil-able pointers and interfaces are [option]. *)

From Stdlib Require Import ZArith List Lia.
From Stdlib.Strings Require Import Ascii String Byte.
From stdpp Require Import base option list strings gmap fin_maps.

Local Open Scope string_scope.

(** ** Byte-level helpers of the Go standard library *)

Abbreviation bytes := (list byte).

(** [net/textproto]: the bytes allowed in a header field name (RFC 7230
    token characters). *)
Definition validHeaderFieldByte (c : ascii) : bool :=
  let n := nat_of_ascii c in
  (Nat.leb 48 n && Nat.leb n 57)
  || (Nat.leb 65 n && Nat.leb n 90)
  || (Nat.leb 97 n && Nat.leb n 122)
  || existsb (Ascii.eqb c) (list_ascii_of_string "!#$%&'*+-.^_`|~").

Definition isLowerByte (c : ascii) : bool :=
  let n := nat_of_ascii c in Nat.leb 97 n && Nat.leb n 122.

Definition isUpperByte (c : ascii) : bool :=
  let n := nat_of_ascii c in Nat.leb 65 n && Nat.leb n 90.

(** ['a' - 'A'] *)
Definition toLower : nat := 32.

(** The second loop of [canonicalMIMEHeaderKey]: first letter and every
    letter after a dash in upper case, the rest in lower case. *)
Fixpoint canonicalizeFrom (upper : bool) (s : string) : string :=
  match s with
  | EmptyString => EmptyString
  | String c rest =>
      let c' :=
        if upper && isLowerByte c then ascii_of_nat (nat_of_ascii c - toLower)
        else if negb upper && isUpperByte c then ascii_of_nat (nat_of_ascii c + toLower)
        else c in
      String c' (canonicalizeFrom (Ascii.eqb c' "-") rest)
  end.

(** [textproto.CanonicalMIMEHeaderKey]: a key holding a byte that is not a
    valid header field byte is returned unchanged. *)
Definition CanonicalMIMEHeaderKey (s : string) : string :=
  if forallb validHeaderFieldByte (list_ascii_of_string s)
  then canonicalizeFrom true s
  else s.

(** ** [http.Header] *)

Abbreviation Header := (gmap string (list string)).

(** [h.Set(key, value)]: replaces whatever the canonical key held. *)
Definition Header_Set (h : Header) (key value : string) : Header :=
  <[CanonicalMIMEHeaderKey key := [value]]> h.

(** [h.Get(key)]: the first value under the canonical key, or the empty
    string. *)
Definition Header_Get (h : Header) (key : string) : string :=
  match h !! CanonicalMIMEHeaderKey key with
  | Some (v :: _) => v
  | _ => ""
  end.


(** ** Streams, URLs, requests and responses *)

(** A readable, seekable byte stream ([io.ReadSeeker], [io.ReadCloser],
    [*bytes.Reader]): the underlying bytes and the read position. *)
Record Stream := mkStream { stream_data : bytes; stream_pos : nat }.

(** The bytes a reader of the stream still gets. *)
Definition stream_bytes (s : Stream) : bytes :=
  drop (stream_pos s) (stream_data s).

(** [bytes.NewReader(b)] *)
Definition bytes_NewReader (b : bytes) : Stream :=
  {| stream_data := b; stream_pos := 0 |}.

Module url.
Record Userinfo := { username : string; password : option string }.

Record URL := mkURL {
  Scheme : string;
  Opaque : string;
  User : option Userinfo;
  Host : string;
  Path : string;
  RawPath : string;
  ForceQuery : bool;
  RawQuery : string;
  Fragment : string }.

(** [u.Path = p] *)
Definition set_Path (u : URL) (p : string) : URL :=
  mkURL (Scheme u) (Opaque u) (User u) (Host u) p (RawPath u)
        (ForceQuery u) (RawQuery u) (Fragment u).

(** [u.Host = h] *)
Definition set_Host (u : URL) (h : string) : URL :=
  mkURL (Scheme u) (Opaque u) (User u) h (Path u) (RawPath u)
        (ForceQuery u) (RawQuery u) (Fragment u).

(** [u.RawQuery = q] *)
Definition set_RawQuery (u : URL) (q : string) : URL :=
  mkURL (Scheme u) (Opaque u) (User u) (Host u) (Path u) (RawPath u)
        (ForceQuery u) q (Fragment u).
End url.

Module http.
Definition StatusOK : Z := 200.
Definition StatusMultipleChoices : Z := 300.

(** The fields of [http.Request] the executor reads or writes. *)
Record Request := mkRequest {
  Method : string;
  URL : url.URL;
  Header : gmap string (list string);
  Body : option Stream;
  Host : string }.

Definition set_Header (r : Request) (h : gmap string (list string)) : Request :=
  mkRequest (Method r) (URL r) h (Body r) (Host r).

Definition set_URL (r : Request) (u : url.URL) : Request :=
  mkRequest (Method r) u (Header r) (Body r) (Host r).

Record Response := mkResponse {
  StatusCode : Z;
  RespHeader : option (gmap string (list string));
  RespBody : Stream }.
End http.

(** ** Errors *)

(** Modelled from the spec: the declaration of [MantaError] is not part of
    the sources at hand. The spec's service error is a status code plus
    the structured fields the service returns, message and code. *)
Record MantaError := mkMantaError {
  StatusCode : Z;
  Code : string;
  Message : string }.

(** Go [error] values: errors made by a library or a collaborator (JSON,
    URL parsing, request construction, the signer, the transport), errors
    wrapped by [errwrap.Wrapf], and [*MantaError]. *)
Inductive error : Type :=
| errorString (msg : string)
| Wrapf (format : string) (err : error)
| ServiceError (e : MantaError).

(** A Go result pair [(value, err)] of which exactly one side is set. *)
Inductive Result (A : Type) : Type :=
| ok (a : A)
| failed (err : error).
Arguments ok {A} a.
Arguments failed {A} err.

(** Modelled from the spec: the payload of an error body, the fields
    [code] and [message] a JSON object may or may not carry. Decoding
    into a [MantaError] writes the fields the payload carries and leaves
    the others, the status code among them, as they were. *)
Record ErrorPayload := mkPayload {
  payload_code : option string;
  payload_message : option string }.

Definition decodeInto (p : ErrorPayload) (e : MantaError) : MantaError :=
  {| StatusCode := StatusCode e;
     Code := default (Code e) (payload_code p);
     Message := default (Message e) (payload_message p) |}.

(** ** Collaborators *)

(** [authentication.Signer]: an authorization header value over a date
    header value. The signer's key material and state are whatever the
    closure holds. *)
Record Signer := mkSigner { Sign : string → Result string }.

Module client.
(** [HTTPClient.Do] is the transport: a response or a transport error
    for the request it is handed. *)
Record Client := mkClient {
  Authorizers : list Signer;
  HTTPClient_Do : http.Request → Result http.Response }.
End client.

Record Storage := mkStorage { Client : client.Client }.

(** What a call reads from the process: the environment and the clock
    (the instant [time.Now()] returns, in seconds since the epoch). *)
Record World := mkWorld {
  Getenv : string → string;
  Now : Z }.

(** The Go standard library functions the executor calls and that are
    kept abstract here. *)
Class Platform := {
  (** the dynamic type of a structured body, [interface{}] *)
  Value : Type;
  (** [json.MarshalIndent(v, prefix, indent)] *)
  json_MarshalIndent : Value → string → string → Result bytes;
  (** [url.Parse] and the [String] method of a URL *)
  url_Parse : string → Result url.URL;
  url_String : url.URL → string;
  (** [validMethod] and [removeEmptyPort] of [net/http], and the [%q]
      verb of [fmt] *)
  validMethod : string → bool;
  removeEmptyPort : string → string;
  fmt_quote : string → string;
  (** [url.Values.Encode] *)
  Values_Encode : gmap string (list string) → string;
  (** [t.UTC().Format(layout)] *)
  time_Format_UTC : Z → string → string;
  (** [json.NewDecoder(r).Decode(&e)] on the bytes [r] still holds *)
  json_Decode : bytes → Result ErrorPayload;
  (** the order in which a [range] loop visits a map: unspecified, but
      every entry exactly once *)
  map_range : gmap string (list string) → list (string * list string);
  map_range_perm : ∀ m, map_range m ≡ₚ map_to_list m }.

(** [time.RFC1123] *)
Definition time_RFC1123 : string := "Mon, 02 Jan 2006 15:04:05 MST".

(** ** The execution monad *)

(** What a call does that is visible from outside, in the order it does
    it: header writes on the request under construction, invocations of
    a signer (by its index in [Authorizers]), and the hand-over of the
    request to the transport. *)
Inductive Event : Type :=
| EvHeaderSet (key value : string)
| EvSign (index : nat) (date : string)
| EvDo (req : http.Request).

(** How a call ends: it returns its three results, or the Go run time
    panics. *)
Inductive Outcome : Type :=
| Returned (body : option Stream) (header : option Header) (err : option error)
| Panicked (msg : string).

Inductive Step (A : Type) : Type :=
| Next (a : A)
| Halt (o : Outcome).
Arguments Next {A} a.
Arguments Halt {A} o.

(** A computation appends to the trace and either goes on with a value
    or ends the call. *)
Definition Exec (A : Type) : Type := list Event → Step A * list Event.

Definition ret {A} (a : A) : Exec A := λ t, (Next a, t).

Definition bind {A B} (m : Exec A) (k : A → Exec B) : Exec B :=
  λ t, match m t with
       | (Next a, t') => k a t'
       | (Halt o, t') => (Halt o, t')
       end.

Definition halt {A} (o : Outcome) : Exec A := λ t, (Halt o, t).

Definition emit (e : Event) : Exec unit := λ t, (Next tt, (t ++ [e])%list).

Declare Scope exec_scope.
Delimit Scope exec_scope with exec.
Notation "x <- m ;; k" := (bind m (λ x, k))
  (at level 100, m at next level, right associativity) : exec_scope.

(** [v, err := f(...); if err != nil { return ... }] *)
Definition orReturn {A} (r : Result A) (onError : error → Outcome) : Exec A :=
  match r with
  | ok a => ret a
  | failed err => halt (onError err)
  end.

(** A [for ... range] loop over the elements of [l], threading the
    mutated object. *)
Fixpoint forRange {A S} (l : list A) (body : S → A → Exec S) (s : S) : Exec S :=
  match l with
  | [] => ret s
  | x :: l' => bind (body s x) (forRange l' body)
  end.

(** [req.Header.Set(key, value)] *)
Definition setHeader (req : http.Request) (key value : string) : Exec http.Request :=
  bind (emit (EvHeaderSet key value))
       (λ _, ret (http.set_Header req (Header_Set (http.Header req) key value))).

(** [signers[i].Sign(date)], with the bounds check of the index
    expression. *)
Definition signWith (signers : list Signer) (i : nat) (date : string)
  : Exec (Result string) :=
  match signers !! i with
  | None => halt (Panicked "runtime error: index out of range")
  | Some signer => bind (emit (EvSign i date)) (λ _, ret (Sign signer date))
  end.

(** [client.Do(req)] *)
Definition doRequest (c : client.Client) (req : http.Request)
  : Exec (Result http.Response) :=
  bind (emit (EvDo req)) (λ _, ret (client.HTTPClient_Do c req)).

(** Running a call from the empty trace. *)
Definition run (m : Exec Empty_set) : Outcome * list Event :=
  match m [] with
  | (Next a, _) => match a with end
  | (Halt o, t) => (o, t)
  end.

Section Executor.
Context `{Platform}.

(** [http.NewRequest(method, urlStr, body)] *)
Definition http_NewRequest (method urlStr : string) (body : option Stream)
  : Result http.Request :=
  let method := if String.eqb method "" then "GET" else method in
  if negb (validMethod method)
  then failed (errorString ("net/http: invalid method " +:+ fmt_quote method))
  else
    match url_Parse urlStr with
    | failed err => failed err
    | ok u =>
        let u := url.set_Host u (removeEmptyPort (url.Host u)) in
        ok {| http.Method := method; http.URL := u; http.Header := ∅;
              http.Body := body; http.Host := url.Host u |}
    end.

Record RequestInput := mkRequestInput {
  Method : string;
  Path : string;
  Query : option (gmap string (list string));
  Headers : option (gmap string (list string));
  Body : option Value }.

Local Open Scope exec_scope.

Definition executeRequest (s : Storage) (w : World) (inputs : RequestInput)
  : Exec Empty_set :=
  let method := Method inputs in
  let path := Path inputs in
  let query := Query inputs in
  let headers := Headers inputs in
  let body := Body inputs in
  requestBody <-
    match body with
    | Some v =>
        marshaled <- orReturn (json_MarshalIndent v "" "    ")
                      (λ err, Returned None None (Some err)) ;;
        ret (Some (bytes_NewReader marshaled))
    | None => ret None
    end ;;
  endpoint <- orReturn (url_Parse (Getenv w "MANTA_URL"))
               (λ err, Returned None None
                  (Some (Wrapf "Error parsing MANTA_URL: {{err}}" err))) ;;
  let endpoint := url.set_Path endpoint path in
  req <- orReturn (http_NewRequest method (url_String endpoint) requestBody)
          (λ err, Returned None None
             (Some (Wrapf "Error constructing HTTP request: {{err}}" err))) ;;
  req <-
    (if bool_decide (body ≠ None)
        && match headers with
           | None => true
           | Some h => String.eqb (Header_Get h "Content-Type") ""
           end
     then setHeader req "Content-Type" "application/json"
     else ret req) ;;
  req <-
    match headers with
    | Some h =>
        forRange (map_range h)
          (λ req kv, forRange kv.2 (λ req value, setHeader req kv.1 value) req)
          req
    | None => ret req
    end ;;
  let dateHeader := time_Format_UTC (Now w) time_RFC1123 in
  req <- setHeader req "date" dateHeader ;;
  signed <- signWith (client.Authorizers (Client s)) 0 dateHeader ;;
  authHeader <- orReturn signed
                 (λ err, Returned None None
                    (Some (Wrapf "Error signing HTTP request: {{err}}" err))) ;;
  req <- setHeader req "Authorization" authHeader ;;
  req <- setHeader req "Accept" "*/*" ;;
  req <- setHeader req "User-Agent" "manta-go client API" ;;
  let req :=
    match query with
    | Some q => http.set_URL req (url.set_RawQuery (http.URL req) (Values_Encode q))
    | None => req
    end in
  sent <- doRequest (Client s) req ;;
  resp <- orReturn sent
           (λ err, Returned None None
              (Some (Wrapf "Error executing HTTP request: {{err}}" err))) ;;
  if Z.leb http.StatusOK (http.StatusCode resp)
     && Z.ltb (http.StatusCode resp) http.StatusMultipleChoices
  then halt (Returned (Some (http.RespBody resp)) (http.RespHeader resp) None)
  else
    let mantaError := {| StatusCode := http.StatusCode resp; Code := ""; Message := "" |} in
    payload <- orReturn (json_Decode (stream_bytes (http.RespBody resp)))
                (λ err, Returned None None
                   (Some (Wrapf "Error decoding error response: {{err}}" err))) ;;
    halt (Returned None None (Some (ServiceError (decodeInto payload mantaError)))).

Record RequestNoEncodeInput := mkRequestNoEncodeInput {
  NE_Method : string;
  NE_Path : string;
  NE_Query : option (gmap string (list string));
  NE_Headers : option (gmap string (list string));
  NE_Body : option Stream }.

Definition executeRequestNoEncode (s : Storage) (w : World)
    (inputs : RequestNoEncodeInput) : Exec Empty_set :=
  let method := NE_Method inputs in
  let path := NE_Path inputs in
  let query := NE_Query inputs in
  let headers := NE_Headers inputs in
  let body := NE_Body inputs in
  endpoint <- orReturn (url_Parse (Getenv w "MANTA_URL"))
               (λ err, Returned None None
                  (Some (Wrapf "Error parsing MANTA_URL: {{err}}" err))) ;;
  let endpoint := url.set_Path endpoint path in
  req <- orReturn (http_NewRequest method (url_String endpoint) body)
          (λ err, Returned None None
             (Some (Wrapf "Error constructing HTTP request: {{err}}" err))) ;;
  req <-
    match headers with
    | Some h =>
        forRange (map_range h)
          (λ req kv, forRange kv.2 (λ req value, setHeader req kv.1 value) req)
          req
    | None => ret req
    end ;;
  let dateHeader := time_Format_UTC (Now w) time_RFC1123 in
  req <- setHeader req "date" dateHeader ;;
  signed <- signWith (client.Authorizers (Client s)) 0 dateHeader ;;
  authHeader <- orReturn signed
                 (λ err, Returned None None
                    (Some (Wrapf "Error signing HTTP request: {{err}}" err))) ;;
  req <- setHeader req "Authorization" authHeader ;;
  req <- setHeader req "Accept" "*/*" ;;
  req <- setHeader req "User-Agent" "manta-go client API" ;;
  let req :=
    match query with
    | Some q => http.set_URL req (url.set_RawQuery (http.URL req) (Values_Encode q))
    | None => req
    end in
  sent <- doRequest (Client s) req ;;
  resp <- orReturn sent
           (λ err, Returned None None
              (Some (Wrapf "Error executing HTTP request: {{err}}" err))) ;;
  if Z.leb http.StatusOK (http.StatusCode resp)
     && Z.ltb (http.StatusCode resp) http.StatusMultipleChoices
  then halt (Returned (Some (http.RespBody resp)) (http.RespHeader resp) None)
  else
    let mantaError := {| StatusCode := http.StatusCode resp; Code := ""; Message := "" |} in
    payload <- orReturn (json_Decode (stream_bytes (http.RespBody resp)))
                (λ err, Returned None None
                   (Some (Wrapf "Error decoding error response: {{err}}" err))) ;;
    halt (Returned None None (Some (ServiceError (decodeInto payload mantaError)))).

End Executor.

(** Either of the two entry points. *)
Inductive Call `{Platform} : Type :=
| Encode (inputs : RequestInput)
| NoEncode (inputs : RequestNoEncodeInput).

Definition execute `{Platform} (s : Storage) (w : World) (c : Call)
  : Outcome * list Event :=
  match c with
  | Encode inputs => run (executeRequest s w inputs)
  | NoEncode inputs => run (executeRequestNoEncode s w inputs)
  end.

Definition callHeaders `{Platform} (c : Call) : option (gmap string (list string)) :=
  match c with
  | Encode inputs => Headers inputs
  | NoEncode inputs => NE_Headers inputs
  end.

(** ** Test doubles

    A small platform, signer and transport on which the executor runs
    inside Rocq. *)
Module Mock.
Definition dq : string := String (ascii_of_nat 34) EmptyString.

(** A value is the text of its indented JSON form; [None] stands for a
    value [encoding/json] refuses, such as a channel. *)
Definition marshal (v : option string) (_ _ : string) : Result bytes :=
  match v with
  | Some text => ok (list_byte_of_string text)
  | None => failed (errorString "json: unsupported type: chan int")
  end.

(** URLs of the form [host/path?query], a leading colon being
    malformed. *)
Fixpoint splitAt (c : ascii) (s : string) : string * option string :=
  match s with
  | EmptyString => (EmptyString, None)
  | String d rest =>
      if Ascii.eqb c d then (EmptyString, Some rest)
      else let '(a, b) := splitAt c rest in (String d a, b)
  end.

Definition parse (s : string) : Result url.URL :=
  match s with
  | String ":" _ => failed (errorString "parse: missing protocol scheme")
  | _ =>
      let '(hostpath, q) := splitAt "?" s in
      let '(host, p) := splitAt "/" hostpath in
      ok (url.mkURL "" "" None host
            (match p with Some p => String "/" p | None => "" end)
            "" false (default "" q) "")
  end.

Definition unparse (u : url.URL) : string :=
  url.Host u +:+ url.Path u +:+
  (if String.eqb (url.RawQuery u) "" then "" else "?" +:+ url.RawQuery u).

Definition encodeValues (q : gmap string (list string)) : string :=
  String.concat "&"
    (flat_map (λ kv, map (λ v, kv.1 +:+ "=" +:+ v) kv.2) (map_to_list q)).

Definition conflictBody : string :=
  "{" +:+ dq +:+ "code" +:+ dq +:+ ":" +:+ dq +:+ "Conflict" +:+ dq +:+ ","
      +:+ dq +:+ "message" +:+ dq +:+ ":" +:+ dq +:+ "x" +:+ dq +:+ "}".

Definition idBody : string :=
  "{" +:+ dq +:+ "id" +:+ dq +:+ ":" +:+ dq +:+ "abc" +:+ dq +:+ "}".

(** Decodes the one error body of the scenarios and the empty object. *)
Definition decode (b : bytes) : Result ErrorPayload :=
  if String.eqb (string_of_list_byte b) conflictBody
  then ok (mkPayload (Some "Conflict") (Some "x"))
  else if String.eqb (string_of_list_byte b) "{}"
  then ok (mkPayload None None)
  else failed (errorString "invalid character in JSON input").

#[export] Instance platform : Platform := {|
  Value := option string;
  json_MarshalIndent := marshal;
  url_Parse := parse;
  url_String := unparse;
  validMethod := λ m, negb (String.eqb m "BAD METHOD");
  removeEmptyPort := λ h, h;
fmt_quote := λ text, dq +:+ text +:+ dq;
  Values_Encode := encodeValues;
  time_Format_UTC := λ _ _, "Thu, 01 Jan 1970 00:00:00 UTC";
  json_Decode := decode;
  map_range := map_to_list;
  map_range_perm := λ m, reflexivity (map_to_list m) |}.

Definition signer (tag : string) : Signer :=
  mkSigner (λ date, ok ("Signature " +:+ tag +:+ " " +:+ date)).

Definition brokenSigner : Signer :=
  mkSigner (λ _, failed (errorString "agent refused operation")).

(** A transport answering every request with the same response. *)
Definition answering (status : Z) (body : string) : http.Request → Result http.Response :=
  λ _, ok (http.mkResponse status (Some ∅) (bytes_NewReader (list_byte_of_string body))).

Definition storage (signers : list Signer) (status : Z) (body : string) : Storage :=
  mkStorage (client.mkClient signers (answering status body)).

Definition world (mantaURL : string) : World :=
  mkWorld (λ name, if String.eqb name "MANTA_URL" then mantaURL else "") 0.

Definition createJob : RequestInput :=
  mkRequestInput "POST" "/jobs" None None (Some (Some "{ name: WordCount }")).
End Mock.

(** ** The executor as a function of its inputs

    The monadic code unfolds to a closed description of the outcome and
    the trace of a call; the properties below are read off from it. *)

Section Description.
Context `{Platform}.

(** What the inner loop over the values of one caller key leaves in the
    header map, and what the loop over all caller keys leaves. *)
Definition writeValues (key : string) (h : Header) (values : list string) : Header :=
  foldl (λ h value, Header_Set h key value) h values.

Definition mergeHeaders (h : Header) (l : list (string * list string)) : Header :=
  foldl (λ h kv, writeValues kv.1 h kv.2) h l.

Definition mergeEvents (l : list (string * list string)) : list Event :=
  flat_map (λ kv, map (EvHeaderSet kv.1) kv.2) l.

Definition rangeOf (headers : option (gmap string (list string)))
  : list (string * list string) :=
  match headers with
  | Some h => map_range h
  | None => []
  end.

(** The last three header writes and the query string. *)
Definition outbound (req : http.Request) (auth : string)
    (query : option (gmap string (list string))) : http.Request :=
  let h := Header_Set (Header_Set (Header_Set (http.Header req)
             "Authorization" auth) "Accept" "*/*") "User-Agent" "manta-go client API" in
  let req := http.set_Header req h in
  match query with
  | Some q => http.set_URL req (url.set_RawQuery (http.URL req) (Values_Encode q))
  | None => req
  end.

(** The classification of what the transport hands back. *)
Definition classify (sent : Result http.Response) : Outcome :=
  match sent with
  | failed err =>
      Returned None None (Some (Wrapf "Error executing HTTP request: {{err}}" err))
  | ok resp =>
      if Z.leb http.StatusOK (http.StatusCode resp)
         && Z.ltb (http.StatusCode resp) http.StatusMultipleChoices
      then Returned (Some (http.RespBody resp)) (http.RespHeader resp) None
      else
        match json_Decode (stream_bytes (http.RespBody resp)) with
        | failed err =>
            Returned None None (Some (Wrapf "Error decoding error response: {{err}}" err))
        | ok payload =>
            Returned None None
              (Some (ServiceError
                 (decodeInto payload
                    {| StatusCode := http.StatusCode resp; Code := ""; Message := "" |})))
        end
  end.

(** From the merge of the caller's headers to the end of the call. *)
Definition signAndSend (s : Storage) (w : World)
    (query headers : option (gmap string (list string)))
    (req : http.Request) (t : list Event) : Outcome * list Event :=
  let l := rangeOf headers in
  let d := time_Format_UTC (Now w) time_RFC1123 in
  let req1 := http.set_Header req (Header_Set (mergeHeaders (http.Header req) l) "date" d) in
  let t1 := (t ++ mergeEvents l ++ [EvHeaderSet "date" d])%list in
  match client.Authorizers (Client s) !! 0%nat with
  | None => (Panicked "runtime error: index out of range", t1)
  | Some signer =>
      match Sign signer d with
      | failed err =>
          (Returned None None (Some (Wrapf "Error signing HTTP request: {{err}}" err)),
           (t1 ++ [EvSign 0 d])%list)
      | ok auth =>
          let r := outbound req1 auth query in
          (classify (client.HTTPClient_Do (Client s) r),
           (t1 ++ [EvSign 0 d; EvHeaderSet "Authorization" auth;
                   EvHeaderSet "Accept" "*/*";
                   EvHeaderSet "User-Agent" "manta-go client API"; EvDo r])%list)
      end
  end.

(** The request body each entry point hands to [http.NewRequest]. *)
Definition requestBodyOf (c : Call) : Result (option Stream) :=
  match c with
  | Encode inputs =>
      match Body inputs with
      | Some v =>
          match json_MarshalIndent v "" "    " with
          | ok marshaled => ok (Some (bytes_NewReader marshaled))
          | failed err => failed err
          end
      | None => ok None
      end
  | NoEncode inputs => ok (NE_Body inputs)
  end.

(** Whether the call writes the default content type. *)
Definition defaultsContentType (c : Call) : bool :=
  match c with
  | Encode inputs =>
      bool_decide (Body inputs ≠ None)
      && match Headers inputs with
         | None => true
         | Some h => String.eqb (Header_Get h "Content-Type") ""
         end
  | NoEncode _ => false
  end.

Definition callMethod (c : Call) : string :=
  match c with Encode i => Method i | NoEncode i => NE_Method i end.

Definition callPath (c : Call) : string :=
  match c with Encode i => Path i | NoEncode i => NE_Path i end.

Definition callQuery (c : Call) : option (gmap string (list string)) :=
  match c with Encode i => Query i | NoEncode i => NE_Query i end.

Definition described (s : Storage) (w : World) (c : Call) : Outcome * list Event :=
  match requestBodyOf c with
  | failed err => (Returned None None (Some err), [])
  | ok requestBody =>
      match url_Parse (Getenv w "MANTA_URL") with
      | failed err =>
          (Returned None None (Some (Wrapf "Error parsing MANTA_URL: {{err}}" err)), [])
      | ok endpoint =>
          match http_NewRequest (callMethod c)
                  (url_String (url.set_Path endpoint (callPath c))) requestBody with
          | failed err =>
              (Returned None None
                 (Some (Wrapf "Error constructing HTTP request: {{err}}" err)), [])
          | ok req =>
              if defaultsContentType c
              then signAndSend s w (callQuery c) (callHeaders c)
                     (http.set_Header req
                        (Header_Set (http.Header req) "Content-Type" "application/json"))
                     [EvHeaderSet "Content-Type" "application/json"]
              else signAndSend s w (callQuery c) (callHeaders c) req []
          end
      end
  end.

(** The header map the merge starts from. *)
Definition initialHeader (c : Call) (req : http.Request) : Header :=
  if defaultsContentType c
  then Header_Set (http.Header req) "Content-Type" "application/json"
  else http.Header req.

Definition initialEvents (c : Call) : list Event :=
  if defaultsContentType c
  then [EvHeaderSet "Content-Type" "application/json"]
  else [].

(** The header writes that precede the signer. *)
Definition eventsBeforeSign (w : World) (c : Call) : list Event :=
  (initialEvents c ++ mergeEvents (rangeOf (callHeaders c))
   ++ [EvHeaderSet "date" (time_Format_UTC (Now w) time_RFC1123)])%list.

Definition isHeaderSet (e : Event) : Prop :=
  match e with EvHeaderSet _ _ => True | _ => False end.

(** The five ways a call ends, by the trace it leaves. *)
Inductive Ending (s : Storage) (w : World) (c : Call) : Outcome → list Event → Prop :=
| EndsBeforeRequest err :
    Ending s w c (Returned None None (Some err)) []
| EndsAtIndex :
    client.Authorizers (Client s) = [] →
    Ending s w c (Panicked "runtime error: index out of range") (eventsBeforeSign w c)
| EndsAtSigner signer rest err :
    client.Authorizers (Client s) = signer :: rest →
    Sign signer (time_Format_UTC (Now w) time_RFC1123) = failed err →
    Ending s w c
      (Returned None None (Some (Wrapf "Error signing HTTP request: {{err}}" err)))
      (eventsBeforeSign w c ++ [EvSign 0 (time_Format_UTC (Now w) time_RFC1123)])
| EndsAfterTransport requestBody endpoint req0 signer rest auth :
    requestBodyOf c = ok requestBody →
    url_Parse (Getenv w "MANTA_URL") = ok endpoint →
    http_NewRequest (callMethod c)
      (url_String (url.set_Path endpoint (callPath c))) requestBody = ok req0 →
    client.Authorizers (Client s) = signer :: rest →
    Sign signer (time_Format_UTC (Now w) time_RFC1123) = ok auth →
    let d := time_Format_UTC (Now w) time_RFC1123 in
    let req :=
      outbound
        (http.set_Header req0
           (Header_Set (mergeHeaders (initialHeader c req0) (rangeOf (callHeaders c)))
              "date" d))
        auth (callQuery c) in
    Ending s w c
      (classify (client.HTTPClient_Do (Client s) req))
      (eventsBeforeSign w c
       ++ [EvSign 0 d; EvHeaderSet "Authorization" auth; EvHeaderSet "Accept" "*/*";
           EvHeaderSet "User-Agent" "manta-go client API"; EvDo req]).

(** Canonical names of the headers the executor writes itself. *)
Definition reserved : list string := ["Date"; "Authorization"; "Accept"; "User-Agent"].

(** The status codes the executor takes for success. *)
Definition isSuccess (status : Z) : Prop := (200 ≤ status < 300)%Z.


(** The caller's headers carry a content type: some key of the map that
    canonicalizes to Content-Type holds at least one value. *)
Definition suppliesContentType (headers : option (gmap string (list string))) : Prop :=
  ∃ h k vs, headers = Some h ∧ h !! k = Some vs
            ∧ CanonicalMIMEHeaderKey k = "Content-Type" ∧ vs ≠ [].

(** Serialization of the structured body fails; only [executeRequest]
    serializes. *)
Definition serializationFails (c : Call) : Prop :=
  match c with
  | Encode inputs =>
      match Body inputs with
      | Some v => ∃ err, json_MarshalIndent v "" "    " = failed err
      | None => False
      end
  | NoEncode _ => False
  end.

(** The steps up to the construction of the request succeed: the body,
    if any, serializes, the base URL parses, and [http.NewRequest]
    returns [req0]. *)
Definition requestConstructed (w : World) (c : Call) (req0 : http.Request) : Prop :=
  ∃ requestBody endpoint,
    requestBodyOf c = ok requestBody
    ∧ url_Parse (Getenv w "MANTA_URL") = ok endpoint
    ∧ http_NewRequest (callMethod c)
        (url_String (url.set_Path endpoint (callPath c))) requestBody = ok req0.

(** Every step before the transport succeeds: the request is
    constructed, there is a first signer, and it signs the formatted
    current time with [auth]. *)
Definition stepsSucceed (s : Storage) (w : World) (c : Call)
    (req0 : http.Request) (auth : string) : Prop :=
  requestConstructed w c req0
  ∧ ∃ signer rest,
      client.Authorizers (Client s) = signer :: rest
      ∧ Sign signer (time_Format_UTC (Now w) time_RFC1123) = ok auth.

(** The request as it stands when it is handed to the transport: the
    request [http.NewRequest] returned, with the headers merged and
    written and the query set. *)
Definition builtRequest (w : World) (c : Call) (req0 : http.Request)
    (auth : string) : http.Request :=
  outbound
    (http.set_Header req0
       (Header_Set
          (mergeHeaders (initialHeader c req0) (rangeOf (callHeaders c)))
          "date" (time_Format_UTC (Now w) time_RFC1123)))
    auth (callQuery c).

(** An invocation of a signer. *)
Definition isSign (e : Event) : Prop :=
  match e with EvSign _ _ => True | _ => False end.


End Description.

(** ** Scenarios on the test doubles *)

Module Scenarios.
Import Mock.

Definition epoch : string := "Thu, 01 Jan 1970 00:00:00 UTC".

Definition manta : World := world "manta.example".

(** The request [executeRequest] builds for [createJob]. *)
Definition createJobRequest : http.Request :=
  {| http.Method := "POST";
     http.URL := url.mkURL "" "" None "manta.example" "/jobs" "" false "" "";
     http.Header :=
       <["Content-Type" := ["application/json"]]>
         (<["Date" := [epoch]]>
            (<["Authorization" := ["Signature k " +:+ epoch]]>
               (<["Accept" := ["*/*"]]>
                  (<["User-Agent" := ["manta-go client API"]]> ∅))));
     http.Body := Some (bytes_NewReader (list_byte_of_string "{ name: WordCount }"));
     http.Host := "manta.example" |}.

Definition response (status : Z) (body : string) : http.Response :=
  http.mkResponse status (Some ∅) (bytes_NewReader (list_byte_of_string body)).

(** A caller asking for JSON answers. *)
Definition acceptJSON : gmap string (list string) :=
  {["Accept" := ["application/json"]]}.

Definition createJobAcceptingJSON : RequestInput :=
  mkRequestInput "POST" "/jobs" None (Some acceptJSON) (Some (Some "{ name: WordCount }")).

Definition requestId : gmap string (list string) :=
  {["x-request-id" := ["42"]]}.

Definition createJobWithId : RequestInput :=
  mkRequestInput "POST" "/jobs" None (Some requestId) (Some (Some "{ name: WordCount }")).

Definition createJobWithIdRequest : http.Request :=
  http.set_Header createJobRequest
    (<["X-Request-Id" := ["42"]]> (http.Header createJobRequest)).

(** A structured body the encoder refuses. *)
Definition createJobFromChannel : RequestInput :=
  mkRequestInput "POST" "/jobs" None None (Some None).

Definition upload : Stream :=
  mkStream (list_byte_of_string "skip:treasure island") 5.

Definition putObject : RequestNoEncodeInput :=
  mkRequestNoEncodeInput "PUT" "/stor/books/treasure_island.txt" None None (Some upload).

Definition putObjectRequest : http.Request :=
  {| http.Method := "PUT";
     http.URL := url.mkURL "" "" None "manta.example"
                   "/stor/books/treasure_island.txt" "" false "" "";
     http.Header :=
       <["Date" := [epoch]]>
         (<["Authorization" := ["Signature k " +:+ epoch]]>
            (<["Accept" := ["*/*"]]>
               (<["User-Agent" := ["manta-go client API"]]> ∅)));
     http.Body := Some upload;
     http.Host := "manta.example" |}.

(** What the signer of the scenarios returns for the time of the
    scenarios. *)
Definition signature : string := "Signature k " +:+ epoch.

(** The requests [http.NewRequest] returns in the scenarios. *)
Definition createJobFresh : http.Request :=
  {| http.Method := "POST";
     http.URL := url.mkURL "" "" None "manta.example" "/jobs" "" false "" "";
     http.Header := ∅;
     http.Body := Some (bytes_NewReader (list_byte_of_string "{ name: WordCount }"));
     http.Host := "manta.example" |}.

Definition putObjectFresh : http.Request :=
  {| http.Method := "PUT";
     http.URL := url.mkURL "" "" None "manta.example"
                   "/stor/books/treasure_island.txt" "" false "" "";
     http.Header := ∅;
     http.Body := Some upload;
     http.Host := "manta.example" |}.

(** An upload that carries a request id. *)
Definition putObjectWithId : RequestNoEncodeInput :=
  mkRequestNoEncodeInput "PUT" "/stor/books/treasure_island.txt" None (Some requestId)
    (Some upload).

(** The claim of C4 read on one call: every value of every caller header
    is on the request handed to the transport, under the canonical name
    of its key. *)
Definition callerValuesPresent (s : Storage) (w : World) (c : Call) : Prop :=
  ∀ h req key values value,
    callHeaders c = Some h →
    EvDo req ∈ (execute s w c).2 →
    h !! key = Some values → value ∈ values →
    ∃ sent, http.Header req !! CanonicalMIMEHeaderKey key = Some sent ∧ value ∈ sent.

(** The claim of C5 read on two calls that differ in the transport only:
    if the status code of an undecodable error response were surfaced,
    equal outcomes would come from equal status codes. *)
Definition statusSurfaced (s1 s2 : Storage) (w : World) (c : Call) : Prop :=
  ∀ req1 req2 resp1 resp2 err1 err2,
    EvDo req1 ∈ (execute s1 w c).2 →
    client.HTTPClient_Do (Client s1) req1 = ok resp1 →
    json_Decode (stream_bytes (http.RespBody resp1)) = failed err1 →
    EvDo req2 ∈ (execute s2 w c).2 →
    client.HTTPClient_Do (Client s2) req2 = ok resp2 →
    json_Decode (stream_bytes (http.RespBody resp2)) = failed err2 →
    (execute s1 w c).1 = (execute s2 w c).1 →
    http.StatusCode resp1 = http.StatusCode resp2.

(** The claim of C8 on a malformed base URL, read on one call. *)
Definition malformedBaseIsConfigurationError (s : Storage) (w : World) (c : Call) : Prop :=
  ∀ err, url_Parse (Getenv w "MANTA_URL") = failed err →
    ∃ err', (execute s w c).1
            = Returned None None (Some (Wrapf "Error parsing MANTA_URL: {{err}}" err')).

End Scenarios.

(** ** Further vocabulary for the request path *)

Section MoreDescription.
Context `{Platform}.

(** The descriptor [executeRequestNoEncode] takes for the request of a
    descriptor of [executeRequest], with the given stream for a body. *)
Definition asNoEncode (inputs : RequestInput) (body : option Stream)
  : RequestNoEncodeInput :=
  mkRequestNoEncodeInput (Method inputs) (Path inputs) (Query inputs)
    (Headers inputs) body.

(** A hand-over to the transport. *)
Definition isDo (e : Event) : Prop :=
  match e with EvDo _ => True | _ => False end.

(** The call is one of [executeRequest] with a non-nil structured body. *)
Definition hasStructuredBody (c : Call) : Prop :=
  match c with
  | Encode inputs => Body inputs ≠ None
  | NoEncode _ => False
  end.

(** Some key of the caller's headers canonicalizes to [K] and holds at
    least one value. *)
Definition suppliesHeader (headers : option (gmap string (list string)))
    (K : string) : Prop :=
  ∃ h k vs, headers = Some h ∧ h !! k = Some vs
            ∧ CanonicalMIMEHeaderKey k = K ∧ vs ≠ [].

(** The formats with which the two entry points wrap the errors of
    their steps. *)
Definition wrapFormats : list string :=
  ["Error parsing MANTA_URL: {{err}}";
   "Error constructing HTTP request: {{err}}";
   "Error signing HTTP request: {{err}}";
   "Error executing HTTP request: {{err}}";
   "Error decoding error response: {{err}}"].

End MoreDescription.

(** ** The example program

    [main] of the job example: it builds a client from the environment
    and runs a fixed sequence of calls of the jobs API, printing what
    they return. The API, the key loading and the client constructor live
    outside the file; they are taken as what they return. *)

Module example.

(** The types of the API as [main] uses them: the fields it writes and
    the fields it reads. Pointers it dereferences are taken to be
    non-nil. *)
Record ClientConfig := mkClientConfig {
  MantaURL : string;
  AccountName : string;
  Signers : list Signer }.

Record JobPhase := mkJobPhase { PhaseType : string; Exec : string }.

Record CreateJobInput := mkCreateJobInput {
  Name : string;
  Phases : list JobPhase }.

Record CreateJobOutput := mkCreateJobOutput { JobID : string }.

Record AddJobInputsInput := mkAddJobInputsInput {
  AddJobID : string;
  ObjectPaths : list string }.

Record JobSummary := mkJobSummary { ID : string }.

Record ListJobsOutput := mkListJobsOutput {
  ListResultSetSize : N;
  Jobs : list JobSummary }.

(** The result of [GetInput] and of [GetOutput]. *)
Record Listing := mkListing {
  ResultSetSize : N;
  Items : Stream }.

(** A call of the jobs API, [client.Jobs().Create(...)] and so on, with
    its input; the inputs of [Get], [EndInput], [GetInput] and
    [GetOutput] hold a job id and nothing else, the input of [List] is
    empty. The context argument is [context.Background()] throughout. *)
Inductive ApiCall : Type :=
| Create (input : CreateJobInput)
| AddInputs (input : AddJobInputsInput)
| Get (jobID : string)
| EndInput (jobID : string)
| List
| GetInput (jobID : string)
| GetOutput (jobID : string).

(** The type of a job as [Get] returns it and the type of its [Stats]
    field. *)
Class JobModel := {
  JobValue : Type;
  StatsValue : Type;
  Stats : JobValue → StatsValue }.

Section Program.
Context `{JobModel}.

(** An argument of a formatted print. *)
Inductive Arg : Type :=
| ArgString (s : string)
| ArgError (err : error)
| ArgUint (n : N)
| ArgJob (j : JobValue)
| ArgStats (st : StatsValue).

Record GetJobOutput := mkGetJobOutput { Job : JobValue }.

(** What the program does that is visible from outside. *)
Inductive MainEvent : Type :=
| EvApi (call : ApiCall)
| EvPrintf (format : string) (args : list Arg)
| EvSleep (nanoseconds : Z)
| EvClose (items : Stream).

(** How the program ends: [main] returns, or [log.Fatalf] or [log.Fatal]
    prints and exits with status 1 at once, deferred calls not run. *)
Inductive Exit : Type :=
| Returns
| Fatal (format : option string) (args : list Arg).

(** What is outside the program. The answers of the jobs API may depend
    on all that happened before, so they take the trace so far. *)
Class Outside := {
  StorageClient : Type;
  ioutil_ReadFile : string → Result bytes;
  NewPrivateKeySigner : string → bytes → string → Result Signer;
  storage_NewClient : ClientConfig → Result StorageClient;
  Jobs_Create : StorageClient → list MainEvent → CreateJobInput → Result CreateJobOutput;
  Jobs_AddInputs : StorageClient → list MainEvent → AddJobInputsInput → option error;
  Jobs_Get : StorageClient → list MainEvent → string → Result GetJobOutput;
  Jobs_EndInput : StorageClient → list MainEvent → string → option error;
  Jobs_List : StorageClient → list MainEvent → Result ListJobsOutput;
  Jobs_GetInput : StorageClient → list MainEvent → string → Result Listing;
  Jobs_GetOutput : StorageClient → list MainEvent → string → Result Listing;
  (** the tokens successive [Scan] calls of a [bufio.Scanner] find *)
  bufio_ScanLines : bytes → list string }.

(** The state of a run: the trace, and the calls deferred so far, the
    latest first. *)
Record RunState := mkRunState {
  trace : list MainEvent;
  deferred : list Stream }.

Inductive Progress (A : Type) : Type :=
| Goes (a : A)
| Stops (e : Exit).
#[global] Arguments Goes {A} a.
#[global] Arguments Stops {A} e.

Definition Prog (A : Type) : Type := RunState → Progress A * RunState.

Definition pure {A} (a : A) : Prog A := λ st, (Goes a, st).

Definition andThen {A B} (m : Prog A) (k : A → Prog B) : Prog B :=
  λ st, match m st with
        | (Goes a, st') => k a st'
        | (Stops e, st') => (Stops e, st')
        end.

Definition record (e : MainEvent) : Prog unit :=
  λ st, (Goes tt, mkRunState (trace st ++ [e])%list (deferred st)).

(** [log.Fatalf(format, args...)] *)
Definition log_Fatalf {A} (format : string) (args : list Arg) : Prog A :=
  λ st, (Stops (Fatal (Some format) args), st).

(** [log.Fatal(err)] *)
Definition log_Fatal {A} (err : error) : Prog A :=
  λ st, (Stops (Fatal None [ArgError err]), st).

(** [fmt.Printf(format, args...)] *)
Definition fmt_Printf (format : string) (args : list Arg) : Prog unit :=
  record (EvPrintf format args).

(** [time.Sleep(d)] *)
Definition time_Sleep (d : Z) : Prog unit := record (EvSleep d).

(** [defer items.Close()] *)
Definition deferClose (items : Stream) : Prog unit :=
  λ st, (Goes tt, mkRunState (trace st) (items :: deferred st)).

(** A call of the API: the answer is the one the service gives after the
    trace so far. *)
Definition calling {A} (call : ApiCall) (answer : list MainEvent → A) : Prog A :=
  λ st, (Goes (answer (trace st)),
         mkRunState (trace st ++ [EvApi call])%list (deferred st)).

(** A [for ... range] loop whose body has no result. *)
Fixpoint forEach {A} (l : list A) (body : A → Prog unit) : Prog unit :=
  match l with
  | [] => pure tt
  | x :: l' => andThen (body x) (λ _, forEach l' body)
  end.

Definition time_Second : Z := 1000000000.

Definition newline : string := String (ascii_of_nat 10) EmptyString.

Declare Scope prog_scope.
Delimit Scope prog_scope with prog.
Notation "x <- m ;; k" := (andThen m (λ x, k))
  (at level 100, m at next level, right associativity) : prog_scope.
Notation "m ;;; k" := (andThen m (λ _, k))
  (at level 100, right associativity) : prog_scope.

Section Main.
Context `{Outside}.
Local Open Scope prog_scope.

Definition main (w : World) : Prog unit :=
  let keyID := Getenv w "SDC_KEY_ID" in
  let accountName := Getenv w "SDC_ACCOUNT" in
  let keyPath := Getenv w "SDC_KEY_FILE" in
  privateKey <-
    match ioutil_ReadFile keyPath with
    | ok privateKey => pure privateKey
    | failed err =>
        log_Fatalf ("Couldn't find key file matching %s" +:+ newline +:+ "%s")
          [ArgString keyID; ArgError err]
    end ;;
  sshKeySigner <-
    match NewPrivateKeySigner keyID privateKey accountName with
    | ok signer => pure signer
    | failed err => log_Fatal err
    end ;;
  let config :=
    {| MantaURL := Getenv w "MANTA_URL";
       AccountName := accountName;
       Signers := [sshKeySigner] |} in
  client <-
    match storage_NewClient config with
    | ok client => pure client
    | failed err => log_Fatalf "NewClient: %s" [ArgError err]
    end ;;
  let createInput :=
    {| Name := "WordCount";
       Phases :=
         [ {| PhaseType := "map"; Exec := "wc" |};
           {| PhaseType := "reduce";
              Exec := "awk '{ l += $1; w += $2; c += $3 } END { print l, w, c }'" |} ] |} in
  created <- calling (Create createInput) (λ t, Jobs_Create client t createInput) ;;
  job <-
    match created with
    | ok job => pure job
    | failed err => log_Fatalf "CreateJob: %s" [ArgError err]
    end ;;
  fmt_Printf ("Job ID: %s" +:+ newline) [ArgString (JobID job)] ;;;
  let firstInputs :=
    {| AddJobID := JobID job;
       ObjectPaths :=
         [ "/" +:+ accountName +:+ "/stor/books/treasure_island.txt";
           "/" +:+ accountName +:+ "/stor/books/moby_dick.txt";
           "/" +:+ accountName +:+ "/stor/books/huck_finn.txt";
           "/" +:+ accountName +:+ "/stor/books/dracula.txt" ] |} in
  err <- calling (AddInputs firstInputs) (λ t, Jobs_AddInputs client t firstInputs) ;;
  match err with
  | Some err => log_Fatalf "AddJobInputs: %s" [ArgError err]
  | None => pure tt
  end ;;;
  let moreInputs :=
    {| AddJobID := JobID job;
       ObjectPaths := [ "/" +:+ accountName +:+ "/stor/books/sherlock_holmes.txt" ] |} in
  err <- calling (AddInputs moreInputs) (λ t, Jobs_AddInputs client t moreInputs) ;;
  match err with
  | Some err => log_Fatalf "AddJobInputs: %s" [ArgError err]
  | None => pure tt
  end ;;;
  got <- calling (Get (JobID job)) (λ t, Jobs_Get client t (JobID job)) ;;
  gjo <-
    match got with
    | ok gjo => pure gjo
    | failed err => log_Fatalf "GetJob: %s" [ArgError err]
    end ;;
  fmt_Printf ("%+v" +:+ newline) [ArgJob (Job gjo)] ;;;
  fmt_Printf ("%+v" +:+ newline) [ArgStats (Stats (Job gjo))] ;;;
  err <- calling (EndInput (JobID job)) (λ t, Jobs_EndInput client t (JobID job)) ;;
  match err with
  | Some err => log_Fatalf "EndJobInput: %s" [ArgError err]
  | None => pure tt
  end ;;;
  listed <- calling List (λ t, Jobs_List client t) ;;
  jobs <-
    match listed with
    | ok jobs => pure jobs
    | failed err => log_Fatalf "ListJobs: %s" [ArgError err]
    end ;;
  fmt_Printf ("Number of jobs: %d" +:+ newline) [ArgUint (ListResultSetSize jobs)] ;;;
  forEach (Jobs jobs) (λ j, fmt_Printf (" - %s" +:+ newline) [ArgString (ID j)]) ;;;
  input <- calling (GetInput (JobID job)) (λ t, Jobs_GetInput client t (JobID job)) ;;
  gjio <-
    match input with
    | ok gjio => pure gjio
    | failed err => log_Fatalf "GetJobInput: %s" [ArgError err]
    end ;;
  deferClose (Items gjio) ;;;
  fmt_Printf ("Result set size: %d" +:+ newline) [ArgUint (ResultSetSize gjio)] ;;;
  forEach (bufio_ScanLines (stream_bytes (Items gjio)))
    (λ line, fmt_Printf (" - %s" +:+ newline) [ArgString line]) ;;;
  time_Sleep (10 * time_Second) ;;;
  output <- calling (GetOutput (JobID job)) (λ t, Jobs_GetOutput client t (JobID job)) ;;
  gjoo <-
    match output with
    | ok gjoo => pure gjoo
    | failed err => log_Fatalf "GetJobOutput: %s" [ArgError err]
    end ;;
  deferClose (Items gjoo) ;;;
  fmt_Printf ("Result set size: %d" +:+ newline) [ArgUint (ResultSetSize gjoo)] ;;;
  forEach (bufio_ScanLines (stream_bytes (Items gjoo)))
    (λ line, fmt_Printf (" - %s" +:+ newline) [ArgString line]).

(** The process from start to exit: [main] runs from the empty trace;
    when it returns, the deferred calls run, the latest first. *)
Definition runMain (w : World) : Exit * list MainEvent :=
  match main w (mkRunState [] []) with
  | (Goes _, st) => (Returns, (trace st ++ map EvClose (deferred st))%list)
  | (Stops e, st) => (e, trace st)
  end.

End Main.

(** The API calls of a trace, in order. *)
Definition apiCalls (t : list MainEvent) : list ApiCall :=
  omap (λ e, match e with EvApi call => Some call | _ => None end) t.

Definition isClose (e : MainEvent) : Prop :=
  match e with EvClose _ => True | _ => False end.

End Program.

(** The method a call invokes. *)
Definition callName (call : ApiCall) : string :=
  match call with
  | Create _ => "Create"
  | AddInputs _ => "AddInputs"
  | Get _ => "Get"
  | EndInput _ => "EndInput"
  | List => "List"
  | GetInput _ => "GetInput"
  | GetOutput _ => "GetOutput"
  end.

(** The job a call is about, for the calls that are about one job. *)
Definition callJobID (call : ApiCall) : option string :=
  match call with
  | Create _ | List => None
  | AddInputs input => Some (AddJobID input)
  | Get id | EndInput id | GetInput id | GetOutput id => Some id
  end.

(** The methods [main] invokes when every call succeeds. *)
Definition callSequence : list string :=
  ["Create"; "AddInputs"; "AddInputs"; "Get"; "EndInput"; "List"; "GetInput";
   "GetOutput"].

End example.

(** ** Test doubles for the further properties *)

Module MoreScenarios.
Import Mock Scenarios.

(** A client whose first signer refuses and whose second would sign. *)
Definition refusing : Storage :=
  storage [brokenSigner; signer "k"] 200 idBody.

(** A client whose transport cannot connect. *)
Definition unreachable : Storage :=
  mkStorage (client.mkClient [signer "k"]
               (λ _, failed (errorString "dial tcp: connection refused"))).

(** A caller header with two values under a key that is not canonical. *)
Definition requestIds : gmap string (list string) :=
  {["x-request-id" := ["41"; "42"]]}.

Definition createJobWithIds : RequestInput :=
  mkRequestInput "POST" "/jobs" None (Some requestIds) (Some (Some "{ name: WordCount }")).

Definition putObjectWithIds : RequestNoEncodeInput :=
  mkRequestNoEncodeInput "PUT" "/stor/books/treasure_island.txt" None (Some requestIds)
    (Some upload).

(** The same job creation without a body. *)
Definition createJobEmpty : RequestInput :=
  mkRequestInput "POST" "/jobs" None None None.

(** A jobs service for the example program: one job, two listings. When
    [outputFails] is set, the output listing is refused. *)
#[export] Instance jobModel : example.JobModel := {|
  example.JobValue := string;
  example.StatsValue := N;
  example.Stats := λ _, 5%N |}.

Definition inputListing : example.Listing :=
  example.mkListing 5 (bytes_NewReader (list_byte_of_string "a.txt b.txt")).

Definition outputListing : example.Listing :=
  example.mkListing 1 (bytes_NewReader (list_byte_of_string "out.txt")).

Definition service (outputFails : bool) : example.Outside := {|
  example.StorageClient := unit;
  example.ioutil_ReadFile := λ path,
    if String.eqb path "/keys/id_rsa" then ok (list_byte_of_string "PRIVATE KEY")
    else failed (errorString "open: no such file or directory");
  example.NewPrivateKeySigner := λ keyID _ _, ok (signer keyID);
  example.storage_NewClient := λ _, ok tt;
  example.Jobs_Create := λ _ _ _, ok (example.mkCreateJobOutput "job-1");
  example.Jobs_AddInputs := λ _ _ _, None;
  example.Jobs_Get := λ _ _ _, ok (example.mkGetJobOutput "WordCount");
  example.Jobs_EndInput := λ _ _ _, None;
  example.Jobs_List := λ _ _,
    ok (example.mkListJobsOutput 1 [example.mkJobSummary "job-1"]);
  example.Jobs_GetInput := λ _ _ _, ok inputListing;
  example.Jobs_GetOutput := λ _ _ _,
    if outputFails then failed (errorString "job still running") else ok outputListing;
  example.bufio_ScanLines := λ b, [string_of_list_byte b] |}.

(** An environment that names the account and the key file. *)
Definition shell : World :=
  mkWorld (λ name,
             if String.eqb name "SDC_KEY_FILE" then "/keys/id_rsa"
             else if String.eqb name "SDC_ACCOUNT" then "alice"
             else if String.eqb name "SDC_KEY_ID" then "aa:bb"
             else if String.eqb name "MANTA_URL" then "manta.example"
             else "") 0.

End MoreScenarios.

(** ** Unfolding lemmas *)

Section Unfolding.
Context `{Platform}.

Lemma forRange_values (key : string) (values : list string) (req : http.Request)
    (t : list Event) :
  forRange values (λ req value, setHeader req key value) req t
  = (Next (http.set_Header req (writeValues key (http.Header req) values)),
     (t ++ map (EvHeaderSet key) values)%list).
Proof.
  revert req t. induction values as [|v values IH]; intros req t; simpl.
  - unfold ret. destruct req; simpl. by rewrite app_nil_r.
  - unfold bind at 1. unfold setHeader at 1, bind, emit, ret. rewrite IH.
    simpl. by rewrite <- app_assoc.
Qed.

Lemma forRange_merge (l : list (string * list string)) (req : http.Request)
    (t : list Event) :
  forRange l (λ req kv, forRange kv.2 (λ req value, setHeader req kv.1 value) req) req t
  = (Next (http.set_Header req (mergeHeaders (http.Header req) l)),
     (t ++ mergeEvents l)%list).
Proof.
  revert req t. induction l as [|[k vs] l IH]; intros req t; simpl.
  - unfold ret. destruct req; simpl. by rewrite app_nil_r.
  - unfold bind at 1. rewrite forRange_values. rewrite IH. simpl.
    by rewrite <- app_assoc.
Qed.

(** Unfolds the monad and walks through the remaining steps of a call,
    one case per way the step can end. *)
Ltac exec_steps :=
  cbv beta iota zeta delta [bind ret halt emit setHeader orReturn doRequest signWith].

Ltac tail_cases s w q :=
  rewrite ?forRange_merge; simpl;
  destruct (client.Authorizers (Client s) !! 0%nat); simpl;
  [|rewrite ?app_nil_r, <- ?app_assoc; reflexivity];
  match goal with
  | |- context [Sign ?signer ?d] => destruct (Sign signer d)
  end; simpl;
  [|rewrite ?app_nil_r, <- ?app_assoc; reflexivity];
  destruct q; unfold http.set_Header, http.set_URL; simpl;
  match goal with
  | |- context [client.HTTPClient_Do ?c ?r] => destruct (client.HTTPClient_Do c r)
  end; simpl;
  rewrite ?app_nil_r, <- ?app_assoc; simpl; try reflexivity;
  (match goal with
   | |- context [Z.leb http.StatusOK ?x && ?y] => destruct (Z.leb http.StatusOK x && y)
   end; [reflexivity|];
   match goal with
   | |- context [json_Decode ?b] => destruct (json_Decode b)
   end; reflexivity).

Lemma executeRequest_described (s : Storage) (w : World) (i : RequestInput) :
  run (executeRequest s w i) = described s w (Encode i).
Proof.
  unfold run, executeRequest, described, requestBodyOf, defaultsContentType,
    callMethod, callPath, callQuery, callHeaders, signAndSend, rangeOf, classify, outbound.
  destruct i as [m p q hs b]; simpl.
  destruct b as [v|]; simpl; exec_steps.
  - destruct (json_MarshalIndent v "" "    ") as [mb|e]; simpl; [|done].
    destruct (url_Parse (Getenv w "MANTA_URL")) as [ep|e]; simpl; [|done].
    destruct (http_NewRequest _ _ _) as [[rm ru rh rb rhost]|e]; simpl; [|done].
    destruct hs as [h|]; [destruct (Header_Get h "Content-Type" =? "")|]; simpl;
      tail_cases s w q.
  - destruct (url_Parse (Getenv w "MANTA_URL")) as [ep|e]; simpl; [|done].
    destruct (http_NewRequest _ _ _) as [[rm ru rh rb rhost]|e]; simpl; [|done].
    destruct hs as [h|]; simpl; tail_cases s w q.
Qed.

Lemma executeRequestNoEncode_described (s : Storage) (w : World)
    (i : RequestNoEncodeInput) :
  run (executeRequestNoEncode s w i) = described s w (NoEncode i).
Proof.
  unfold run, executeRequestNoEncode, described, requestBodyOf, defaultsContentType,
    callMethod, callPath, callQuery, callHeaders, signAndSend, rangeOf, classify, outbound.
  destruct i as [m p q hs b]; simpl. exec_steps.
  destruct (url_Parse (Getenv w "MANTA_URL")) as [ep|e]; simpl; [|done].
  destruct (http_NewRequest _ _ _) as [[rm ru rh rb rhost]|e]; simpl; [|done].
  destruct hs as [h|]; simpl; tail_cases s w q.
Qed.

Lemma execute_described (s : Storage) (w : World) (c : Call) :
  execute s w c = described s w c.
Proof.
  destruct c; [apply executeRequest_described | apply executeRequestNoEncode_described].
Qed.

End Unfolding.

(** ** Header maps after the merge *)

Section Headers.
Context `{Platform}.

Lemma lookup_Header_Set (h : Header) (key value K : string) :
  Header_Set h key value !! K
  = if decide (CanonicalMIMEHeaderKey key = K) then Some [value] else h !! K.
Proof. unfold Header_Set. apply lookup_insert. Qed.

Lemma lookup_writeValues (key : string) (values : list string) (h : Header) (K : string) :
  writeValues key h values !! K
  = if decide (CanonicalMIMEHeaderKey key = K)
    then match last values with Some v => Some [v] | None => h !! K end
    else h !! K.
Proof.
  unfold writeValues. revert h.
  induction values as [|v values IH] using rev_ind; intros h.
  - simpl. by case_decide.
  - rewrite foldl_app. simpl. rewrite lookup_Header_Set, last_snoc.
    case_decide; [done|]. by rewrite IH.
Qed.

Lemma range_elem (h : gmap string (list string)) (k : string) (vs : list string) :
  (k, vs) ∈ map_range h ↔ h !! k = Some vs.
Proof. rewrite (map_range_perm h). apply elem_of_map_to_list. Qed.

(** Keys the caller's entries do not reach keep what they held. *)
Lemma merge_lookup_untouched (l : list (string * list string)) (h : Header) (K : string) :
  (∀ k vs, (k, vs) ∈ l → CanonicalMIMEHeaderKey k = K → vs = []) →
  mergeHeaders h l !! K = h !! K.
Proof.
  unfold mergeHeaders. revert h. induction l as [|[k vs] l IH]; intros h Hl; [done|].
  simpl. rewrite IH.
  - rewrite lookup_writeValues. case_decide as Hk; [|done].
    rewrite (Hl k vs); [done|apply list_elem_of_here|done].
  - intros k' vs' Hin. apply Hl. by apply list_elem_of_further.
Qed.

(** A key some entry reaches ends up with the last value of one such
    entry. *)
Lemma merge_lookup_supplied (l : list (string * list string)) (h : Header) (K : string) :
  (∃ k vs, (k, vs) ∈ l ∧ CanonicalMIMEHeaderKey k = K ∧ vs ≠ []) →
  ∃ k vs v, (k, vs) ∈ l ∧ CanonicalMIMEHeaderKey k = K ∧ last vs = Some v
            ∧ mergeHeaders h l !! K = Some [v].
Proof.
  unfold mergeHeaders.
  induction l as [|[k vs] l IH] using rev_ind; intros (k0 & vs0 & Hin & Hk0 & Hne).
  - by apply elem_of_nil in Hin.
  - rewrite foldl_app. simpl. rewrite lookup_writeValues.
    destruct (decide (CanonicalMIMEHeaderKey k = K)) as [Hk|Hk].
    + destruct (last vs) as [v|] eqn:Hlast.
      * exists k, vs, v. split_and!; try done. apply elem_of_app. right. apply list_elem_of_here.
      * apply last_None in Hlast. subst vs.
        apply elem_of_app in Hin as [Hin|Hin].
        -- destruct IH as (k1 & vs1 & v1 & ? & ? & ? & ?); [by exists k0, vs0|].
           exists k1, vs1, v1. split_and!; try done. apply elem_of_app. by left.
        -- apply list_elem_of_singleton in Hin. by simplify_eq.
    + apply elem_of_app in Hin as [Hin|Hin].
      * destruct IH as (k1 & vs1 & v1 & ? & ? & ? & ?); [by exists k0, vs0|].
        exists k1, vs1, v1. split_and!; try done. apply elem_of_app. by left.
      * apply list_elem_of_singleton in Hin. by simplify_eq.
Qed.

(** The events of the merge are writes of the caller's own values. *)
Lemma elem_of_mergeEvents (l : list (string * list string)) (e : Event) :
  e ∈ mergeEvents l ↔ ∃ k vs v, (k, vs) ∈ l ∧ v ∈ vs ∧ e = EvHeaderSet k v.
Proof.
  unfold mergeEvents. rewrite list_elem_of_In, in_flat_map. split.
  - intros ([k vs] & Hin & He). apply in_map_iff in He as (v & <- & Hv).
    exists k, vs, v. by rewrite !list_elem_of_In.
  - intros (k & vs & v & Hin & Hv & ->). exists (k, vs).
    rewrite <- list_elem_of_In. split; [done|]. apply in_map_iff. exists v.
    by rewrite <- list_elem_of_In.
Qed.

End Headers.

(** ** What a call that reaches the transport has done *)

Section Sent.
Context `{Platform}.

Lemma eventsBeforeSign_headers (w : World) (c : Call) (e : Event) :
  e ∈ eventsBeforeSign w c → isHeaderSet e.
Proof.
  unfold eventsBeforeSign, initialEvents. rewrite !elem_of_app.
  intros [He|[He|He]].
  - destruct (defaultsContentType c).
    + apply list_elem_of_singleton in He. by subst.
    + by apply elem_of_nil in He.
  - apply elem_of_mergeEvents in He as (k & vs & v & _ & _ & ->). done.
  - apply list_elem_of_singleton in He. by subst.
Qed.

Lemma lookup_0_cases (l : list Signer) :
  (l !! 0%nat = None ∧ l = []) ∨ (∃ x rest, l !! 0%nat = Some x ∧ l = x :: rest).
Proof. destruct l as [|x rest]; [by left|right; by exists x, rest]. Qed.

Lemma execute_ending (s : Storage) (w : World) (c : Call) :
  Ending s w c (execute s w c).1 (execute s w c).2.
Proof.
  rewrite execute_described.
  destruct (described s w c) as [o tr] eqn:Hd. simpl.
  unfold described in Hd.
  destruct (requestBodyOf c) as [rb|e] eqn:Hrb;
    [|injection Hd as <- <-; constructor].
  destruct (url_Parse _) as [ep|e] eqn:Hep; [|injection Hd as <- <-; constructor].
  destruct (http_NewRequest _ _ _) as [req0|e] eqn:Hreq;
    [|injection Hd as <- <-; constructor].
  assert (signAndSend s w (callQuery c) (callHeaders c)
            (http.set_Header req0 (initialHeader c req0)) (initialEvents c) = (o, tr))
    as Hs.
  { unfold initialHeader, initialEvents.
    destruct (defaultsContentType c); [done|]. by destruct req0. }
  clear Hd. unfold signAndSend in Hs. simpl in Hs.
  destruct (lookup_0_cases (client.Authorizers (Client s)))
    as [[Hl Hnil]|(signer & rest & Hl & Hcons)]; rewrite Hl in Hs.
  - injection Hs as <- <-. by apply EndsAtIndex.
  - destruct (Sign signer _) as [auth|e] eqn:Hsign; injection Hs as <- <-.
    + pose proof (EndsAfterTransport s w c rb ep req0 signer rest auth
                    Hrb Hep Hreq Hcons Hsign) as E.
      destruct req0. exact E.
    + pose proof (EndsAtSigner s w c signer rest e Hcons Hsign) as E.
      exact E.
Qed.

End Sent.

Section Consequences.
Context `{Platform}.

(** The request the transport was handed is the one the trace ends
    with, and the outcome is the classification of the answer. *)
Lemma execute_sent (s : Storage) (w : World) (c : Call) (req : http.Request) :
  EvDo req ∈ (execute s w c).2 →
  ∃ requestBody endpoint req0 signer rest auth,
    requestBodyOf c = ok requestBody
    ∧ url_Parse (Getenv w "MANTA_URL") = ok endpoint
    ∧ http_NewRequest (callMethod c)
        (url_String (url.set_Path endpoint (callPath c))) requestBody = ok req0
    ∧ client.Authorizers (Client s) = signer :: rest
    ∧ Sign signer (time_Format_UTC (Now w) time_RFC1123) = ok auth
    ∧ req = outbound
              (http.set_Header req0
                 (Header_Set
                    (mergeHeaders (initialHeader c req0) (rangeOf (callHeaders c)))
                    "date" (time_Format_UTC (Now w) time_RFC1123)))
              auth (callQuery c)
    ∧ (execute s w c).1 = classify (client.HTTPClient_Do (Client s) req).
Proof.
  intros Hin. destruct (execute_ending s w c) as
    [err| Hnil | signer rest err Hcons Hsign
     | rb ep req0 signer rest auth Hrb Hep Hreq Hcons Hsign d req'].
  - by apply elem_of_nil in Hin.
  - by apply eventsBeforeSign_headers in Hin.
  - apply elem_of_app in Hin as [Hin|Hin].
    + by apply eventsBeforeSign_headers in Hin.
    + apply list_elem_of_singleton in Hin. done.
  - assert (req = req') as ->.
    { apply elem_of_app in Hin as [Hin|Hin].
      - by apply eventsBeforeSign_headers in Hin.
      - rewrite !elem_of_cons in Hin.
        destruct Hin as [?|[?|[?|[?|[?|Hin]]]]]; try done; [by simplify_eq|].
        by apply elem_of_nil in Hin. }
    by exists rb, ep, req0, signer, rest, auth.
Qed.

Lemma http_NewRequest_ok (method urlStr : string) (body : option Stream)
    (req : http.Request) :
  http_NewRequest method urlStr body = ok req →
  http.Header req = ∅ ∧ http.Body req = body
  ∧ ∃ u, url_Parse urlStr = ok u
         ∧ http.URL req = url.set_Host u (removeEmptyPort (url.Host u)).
Proof.
  unfold http_NewRequest. destruct (negb _); [done|].
  destruct (url_Parse urlStr) as [u|e]; [|done].
  intros [= <-]. simpl. eauto.
Qed.

Lemma outbound_Header (req : http.Request) (h : Header) (d auth : string)
    (q : option (gmap string (list string))) :
  http.Header (outbound (http.set_Header req (Header_Set h "date" d)) auth q)
  = <["User-Agent" := ["manta-go client API"]]>
      (<["Accept" := ["*/*"]]>
         (<["Authorization" := [auth]]> (<["Date" := [d]]> h))).
Proof. unfold outbound. by destruct q. Qed.

Lemma outbound_lookup_other (req : http.Request) (h : Header) (d auth : string)
    (q : option (gmap string (list string))) (K : string) :
  K ∉ reserved →
  http.Header (outbound (http.set_Header req (Header_Set h "date" d)) auth q) !! K
  = h !! K.
Proof.
  intros HK. rewrite outbound_Header. unfold reserved in HK.
  rewrite !lookup_insert_ne; [done|..]; intros <-; apply HK; set_solver.
Qed.

Lemma outbound_Body (req : http.Request) (auth : string)
    (q : option (gmap string (list string))) :
  http.Body (outbound req auth q) = http.Body req.
Proof. unfold outbound. by destruct q. Qed.

Lemma classify_error (sent : Result http.Response) (b : option Stream)
    (h : option Header) (e : error) :
  classify sent = Returned b h (Some e) → b = None ∧ h = None.
Proof.
  unfold classify. destruct sent as [resp|err]; [|by intros [= <- <- _]].
  destruct (_ && _); [done|].
  by destruct (json_Decode _); intros [= <- <- _].
Qed.

(** When every step before the transport succeeds, the call hands the
    built request over as its last step and returns the classification
    of the answer. *)
Lemma execute_reaches (s : Storage) (w : World) (c : Call) (req0 : http.Request)
    (auth : string) :
  stepsSucceed s w c req0 auth →
  (execute s w c).1
  = classify (client.HTTPClient_Do (Client s) (builtRequest w c req0 auth))
  ∧ (execute s w c).2
    = (eventsBeforeSign w c
       ++ [EvSign 0 (time_Format_UTC (Now w) time_RFC1123);
           EvHeaderSet "Authorization" auth; EvHeaderSet "Accept" "*/*";
           EvHeaderSet "User-Agent" "manta-go client API";
           EvDo (builtRequest w c req0 auth)])%list
  ∧ last (execute s w c).2 = Some (EvDo (builtRequest w c req0 auth))
  ∧ EvDo (builtRequest w c req0 auth) ∈ (execute s w c).2.
Proof.
  intros [(rb & ep & Hrb & Hep & Hreq) (signer & rest & Hcons & Hsign)].
  assert (execute s w c
          = (classify (client.HTTPClient_Do (Client s) (builtRequest w c req0 auth)),
             (eventsBeforeSign w c
              ++ [EvSign 0 (time_Format_UTC (Now w) time_RFC1123);
                  EvHeaderSet "Authorization" auth; EvHeaderSet "Accept" "*/*";
                  EvHeaderSet "User-Agent" "manta-go client API";
                  EvDo (builtRequest w c req0 auth)])%list)) as ->.
  { rewrite execute_described. unfold described. rewrite Hrb, Hep, Hreq.
    transitivity (signAndSend s w (callQuery c) (callHeaders c)
                    (http.set_Header req0 (initialHeader c req0)) (initialEvents c)).
    { unfold initialHeader, initialEvents.
      destruct (defaultsContentType c); [done|]. by destruct req0. }
    unfold signAndSend. rewrite Hcons. simpl. rewrite Hsign.
    unfold builtRequest, eventsBeforeSign. destruct req0. simpl.
    by rewrite <- !app_assoc. }
  simpl. split_and!; try done.
  - change [EvSign 0 (time_Format_UTC (Now w) time_RFC1123);
            EvHeaderSet "Authorization" auth; EvHeaderSet "Accept" "*/*";
            EvHeaderSet "User-Agent" "manta-go client API";
            EvDo (builtRequest w c req0 auth)]
      with ([EvSign 0 (time_Format_UTC (Now w) time_RFC1123);
             EvHeaderSet "Authorization" auth; EvHeaderSet "Accept" "*/*";
             EvHeaderSet "User-Agent" "manta-go client API"]
            ++ [EvDo (builtRequest w c req0 auth)])%list.
    by rewrite app_assoc, last_snoc.
  - apply elem_of_app. right. rewrite !elem_of_cons. tauto.
Qed.

(** When the request is constructed and there is a first signer, the
    call invokes it, right after the header writes that precede it. *)
Lemma execute_signs (s : Storage) (w : World) (c : Call) (req0 : http.Request)
    (signer : Signer) (rest : list Signer) :
  requestConstructed w c req0 →
  client.Authorizers (Client s) = signer :: rest →
  ∃ post,
    (execute s w c).2
    = (eventsBeforeSign w c
       ++ EvSign 0 (time_Format_UTC (Now w) time_RFC1123) :: post)%list.
Proof.
  intros (rb & ep & Hrb & Hep & Hreq) Hcons.
  rewrite execute_described. unfold described. rewrite Hrb, Hep, Hreq.
  assert (∀ req t,
    (signAndSend s w (callQuery c) (callHeaders c) req t).2
    = (t ++ mergeEvents (rangeOf (callHeaders c))
       ++ [EvHeaderSet "date" (time_Format_UTC (Now w) time_RFC1123)]
       ++ EvSign 0 (time_Format_UTC (Now w) time_RFC1123)
       :: match Sign signer (time_Format_UTC (Now w) time_RFC1123) with
          | ok auth =>
              [EvHeaderSet "Authorization" auth; EvHeaderSet "Accept" "*/*";
               EvHeaderSet "User-Agent" "manta-go client API";
               EvDo (outbound
                       (http.set_Header req
                          (Header_Set
                             (mergeHeaders (http.Header req) (rangeOf (callHeaders c)))
                             "date" (time_Format_UTC (Now w) time_RFC1123)))
                       auth (callQuery c))]
          | failed _ => []
          end)%list) as Htail.
  { intros req t. unfold signAndSend. rewrite Hcons. simpl.
    destruct (Sign signer _); simpl; by rewrite <- !app_assoc. }
  unfold eventsBeforeSign, initialEvents.
  destruct (defaultsContentType c); rewrite Htail; eexists; by rewrite <- ?app_assoc.
Qed.

Lemma built_Header (w : World) (c : Call) (req0 : http.Request) (auth : string) :
  http.Header (builtRequest w c req0 auth)
  = <["User-Agent" := ["manta-go client API"]]>
      (<["Accept" := ["*/*"]]>
         (<["Authorization" := [auth]]>
            (<["Date" := [time_Format_UTC (Now w) time_RFC1123]]>
               (mergeHeaders (initialHeader c req0) (rangeOf (callHeaders c)))))).
Proof. unfold builtRequest. apply outbound_Header. Qed.

Lemma built_reserved (w : World) (c : Call) (req0 : http.Request) (auth : string) :
  http.Header (builtRequest w c req0 auth) !! "Date"
  = Some [time_Format_UTC (Now w) time_RFC1123]
  ∧ http.Header (builtRequest w c req0 auth) !! "Authorization" = Some [auth]
  ∧ http.Header (builtRequest w c req0 auth) !! "Accept" = Some ["*/*"]
  ∧ http.Header (builtRequest w c req0 auth) !! "User-Agent"
    = Some ["manta-go client API"].
Proof.
  rewrite built_Header.
  split_and!;
    repeat first [done | rewrite lookup_insert_eq | rewrite lookup_insert_ne by done].
Qed.

End Consequences.

(** ** Properties of the request path *)

Section Properties.
Context `{Platform}.

Lemma classify_success (resp : http.Response) :
  isSuccess (http.StatusCode resp) →
  classify (ok resp)
  = Returned (Some (http.RespBody resp)) (http.RespHeader resp) None.
Proof.
  unfold isSuccess, classify, http.StatusOK, http.StatusMultipleChoices. intros Hs.
  replace (200 <=? http.StatusCode resp)%Z with true by (symmetry; apply Z.leb_le; lia).
  replace (http.StatusCode resp <? 300)%Z with true by (symmetry; apply Z.ltb_lt; lia).
  done.
Qed.

Lemma classify_failure (resp : http.Response) :
  ¬ isSuccess (http.StatusCode resp) →
  classify (ok resp)
  = match json_Decode (stream_bytes (http.RespBody resp)) with
    | failed err =>
        Returned None None (Some (Wrapf "Error decoding error response: {{err}}" err))
    | ok payload =>
        Returned None None
          (Some (ServiceError
             (decodeInto payload
                {| StatusCode := http.StatusCode resp; Code := ""; Message := "" |})))
    end.
Proof.
  unfold isSuccess, classify, http.StatusOK, http.StatusMultipleChoices. intros Hs.
  destruct (200 <=? http.StatusCode resp)%Z eqn:H1;
    destruct (http.StatusCode resp <? 300)%Z eqn:H2; simpl; try done.
  apply Z.leb_le in H1. apply Z.ltb_lt in H2. lia.
Qed.

(** A request handed over, a status outside [200,300) and a body that
    decodes give the structured error. *)
Lemma service_error_of_sent (s : Storage) (w : World) (c : Call)
    (req : http.Request) (resp : http.Response) (payload : ErrorPayload) :
  EvDo req ∈ (execute s w c).2 →
  client.HTTPClient_Do (Client s) req = ok resp →
  ¬ isSuccess (http.StatusCode resp) →
  json_Decode (stream_bytes (http.RespBody resp)) = ok payload →
  (execute s w c).1
  = Returned None None
      (Some (ServiceError
         {| StatusCode := http.StatusCode resp;
            Code := default "" (payload_code payload);
            Message := default "" (payload_message payload) |})).
Proof.
  intros Hin Hdo Hstatus Hdec.
  destruct (execute_sent s w c req Hin) as (? & ? & ? & ? & ? & ? & _ & _ & _ & _ & _ & _ & ->).
  by rewrite Hdo, classify_failure, Hdec.
Qed.

(** A request handed over, a status outside [200,300) and a body that
    does not decode give the wrapped error of the decoder. *)
Lemma decode_error_of_sent (s : Storage) (w : World) (c : Call)
    (req : http.Request) (resp : http.Response) (err : error) :
  EvDo req ∈ (execute s w c).2 →
  client.HTTPClient_Do (Client s) req = ok resp →
  ¬ isSuccess (http.StatusCode resp) →
  json_Decode (stream_bytes (http.RespBody resp)) = failed err →
  (execute s w c).1
  = Returned None None (Some (Wrapf "Error decoding error response: {{err}}" err))
  ∧ ∀ e : MantaError,
      Wrapf "Error decoding error response: {{err}}" err ≠ ServiceError e.
Proof.
  intros Hin Hdo Hstatus Hdec.
  destruct (execute_sent s w c req Hin) as (? & ? & ? & ? & ? & ? & _ & _ & _ & _ & _ & _ & ->).
  by rewrite Hdo, classify_failure, Hdec.
Qed.

(** A request handed over and a status in [200,300) give the answer's
    body and headers. *)
Lemma success_of_sent (s : Storage) (w : World) (c : Call)
    (req : http.Request) (resp : http.Response) :
  EvDo req ∈ (execute s w c).2 →
  client.HTTPClient_Do (Client s) req = ok resp →
  isSuccess (http.StatusCode resp) →
  (execute s w c).1
  = Returned (Some (http.RespBody resp)) (http.RespHeader resp) None.
Proof.
  intros Hin Hdo Hstatus.
  destruct (execute_sent s w c req Hin) as (? & ? & ? & ? & ? & ? & _ & _ & _ & _ & _ & _ & ->).
  by rewrite Hdo, classify_success.
Qed.

(** C1. When every step before the transport succeeds, the call of
    either entry point hands the built request to the transport; when
    the answer has a status outside [200,300) and its body decodes, the
    call returns nil, nil and a [MantaError] whose status code is that of
    the response and whose code and message are those of the decoded
    payload (a field the payload lacks is the empty string). *)
Theorem C1_service_error (s : Storage) (w : World) (c : Call)
    (req0 : http.Request) (auth : string) (resp : http.Response)
    (payload : ErrorPayload) :
  stepsSucceed s w c req0 auth →
  client.HTTPClient_Do (Client s) (builtRequest w c req0 auth) = ok resp →
  ¬ isSuccess (http.StatusCode resp) →
  json_Decode (stream_bytes (http.RespBody resp)) = ok payload →
  last (execute s w c).2 = Some (EvDo (builtRequest w c req0 auth))
  ∧ (execute s w c).1
    = Returned None None
        (Some (ServiceError
           {| StatusCode := http.StatusCode resp;
              Code := default "" (payload_code payload);
              Message := default "" (payload_message payload) |})).
Proof.
  intros Hsteps Hdo Hstatus Hdec.
  destruct (execute_reaches s w c req0 auth Hsteps) as (_ & _ & Hlast & Hin).
  split; [done|]. by eapply service_error_of_sent.
Qed.

(** C5, as the code has it. When every step before the transport
    succeeds, the call hands the built request to the transport; when
    the answer has a status outside [200,300) and its body does not
    decode, the call returns nil, nil and the decoder's error wrapped as
    "Error decoding error response"; that error is not a [MantaError],
    and nothing of the response beyond the decoder's error is part of
    it. *)
Theorem C5_decode_error (s : Storage) (w : World) (c : Call)
    (req0 : http.Request) (auth : string) (resp : http.Response) (err : error) :
  stepsSucceed s w c req0 auth →
  client.HTTPClient_Do (Client s) (builtRequest w c req0 auth) = ok resp →
  ¬ isSuccess (http.StatusCode resp) →
  json_Decode (stream_bytes (http.RespBody resp)) = failed err →
  last (execute s w c).2 = Some (EvDo (builtRequest w c req0 auth))
  ∧ (execute s w c).1
    = Returned None None (Some (Wrapf "Error decoding error response: {{err}}" err))
  ∧ ∀ e : MantaError,
      Wrapf "Error decoding error response: {{err}}" err ≠ ServiceError e.
Proof.
  intros Hsteps Hdo Hstatus Hdec.
  destruct (execute_reaches s w c req0 auth Hsteps) as (_ & _ & Hlast & Hin).
  split; [done|]. by eapply decode_error_of_sent.
Qed.

(** C7. When every step before the transport succeeds, the call of
    either entry point hands the built request to the transport; when
    the answer has a status in [200,300), the call returns the answer's
    very body stream, hence its bytes unchanged, the answer's headers as
    they are, and a nil error. *)
Theorem C7_success_passes_response (s : Storage) (w : World) (c : Call)
    (req0 : http.Request) (auth : string) (resp : http.Response) :
  stepsSucceed s w c req0 auth →
  client.HTTPClient_Do (Client s) (builtRequest w c req0 auth) = ok resp →
  isSuccess (http.StatusCode resp) →
  last (execute s w c).2 = Some (EvDo (builtRequest w c req0 auth))
  ∧ (execute s w c).1
    = Returned (Some (http.RespBody resp)) (http.RespHeader resp) None.
Proof.
  intros Hsteps Hdo Hstatus.
  destruct (execute_reaches s w c req0 auth Hsteps) as (_ & _ & Hlast & Hin).
  split; [done|]. by eapply success_of_sent.
Qed.

(** C10. Whenever either entry point returns a non-nil error, whatever
    the step that failed, the body stream and the headers it returns are
    both nil. *)
Theorem C10_error_returns_nil_resources (s : Storage) (w : World) (c : Call)
    (body : option Stream) (header : option Header) (err : error) :
  (execute s w c).1 = Returned body header (Some err) →
  body = None ∧ header = None.
Proof.
  destruct (execute_ending s w c); try by intros [= <- <- _].
  apply classify_error.
Qed.

Lemma content_type_not_reserved : "Content-Type" ∉ reserved.
Proof.
  unfold reserved. repeat (apply not_elem_of_cons; split; [done|]).
  apply not_elem_of_nil.
Qed.

(** Every header write of a call is the default content type, a value of
    the caller's headers under the caller's key, or one of the four
    writes the executor ends with. *)
Lemma trace_header_writes (s : Storage) (w : World) (c : Call) (key value : string) :
  EvHeaderSet key value ∈ (execute s w c).2 →
  EvHeaderSet key value ∈ initialEvents c
  ∨ (∃ h vs, callHeaders c = Some h ∧ h !! key = Some vs ∧ value ∈ vs)
  ∨ key ∈ ["date"; "Authorization"; "Accept"; "User-Agent"].
Proof.
  assert (∀ e, e ∈ eventsBeforeSign w c → e = EvHeaderSet key value →
    EvHeaderSet key value ∈ initialEvents c
    ∨ (∃ h vs, callHeaders c = Some h ∧ h !! key = Some vs ∧ value ∈ vs)
    ∨ key ∈ ["date"; "Authorization"; "Accept"; "User-Agent"]) as Hbefore.
  { intros e He ->. unfold eventsBeforeSign in He.
    rewrite !elem_of_app in He. destruct He as [He|[He|He]].
    - by left.
    - right. left.
      apply elem_of_mergeEvents in He as (k & vs & v0 & Hkv & Hv & [= -> ->]).
      destruct (callHeaders c) as [h|]; simpl in Hkv; [|by apply elem_of_nil in Hkv].
      apply range_elem in Hkv. by exists h, vs.
    - right. right. apply list_elem_of_singleton in He. simplify_eq.
      apply list_elem_of_here. }
  intros Hev. destruct (execute_ending s w c); simpl in Hev.
  - by apply elem_of_nil in Hev.
  - by eapply Hbefore.
  - apply elem_of_app in Hev as [Hev|Hev]; [by eapply Hbefore|].
    apply list_elem_of_singleton in Hev. done.
  - apply elem_of_app in Hev as [Hev|Hev]; [by eapply Hbefore|].
    right. right. rewrite !elem_of_cons in Hev. rewrite !elem_of_cons.
    destruct Hev as [?|[?|[?|[?|[?|Hev]]]]]; simplify_eq; auto.
    by apply elem_of_nil in Hev.
Qed.

Lemma merged_untouched (headers : option (gmap string (list string)))
    (h0 : Header) (K : string) :
  (∀ h k vs, headers = Some h → h !! k = Some vs →
             CanonicalMIMEHeaderKey k = K → vs = []) →
  mergeHeaders h0 (rangeOf headers) !! K = h0 !! K.
Proof.
  intros Hno. apply merge_lookup_untouched. intros k vs Hin Hk.
  destruct headers as [h|]; simpl in Hin; [|by apply elem_of_nil in Hin].
  apply range_elem in Hin. by eapply Hno.
Qed.

Lemma not_supplied_untouched (headers : option (gmap string (list string)))
    (h0 : Header) :
  ¬ suppliesContentType headers →
  mergeHeaders h0 (rangeOf headers) !! "Content-Type" = h0 !! "Content-Type".
Proof.
  intros Hno. apply merged_untouched. intros h k vs -> Hk Hc.
  destruct vs as [|v vs]; [done|]. destruct Hno. by exists h, k, (v :: vs).
Qed.

Lemma not_supplied_Get (h : gmap string (list string)) :
  ¬ suppliesContentType (Some h) → Header_Get h "Content-Type" = "".
Proof.
  intros Hno. unfold Header_Get.
  destruct (h !! CanonicalMIMEHeaderKey "Content-Type") as [[|v vs]|] eqn:Hl; try done.
  destruct Hno. by exists h, "Content-Type", (v :: vs).
Qed.

(** The body and the content type of a request [executeRequest] has
    handed over, and the outcome of a failed serialization. *)
Lemma structured_body_of_sent (s : Storage) (w : World) (inputs : RequestInput)
    (v : Value) :
  Body inputs = Some v →
  (∀ err, json_MarshalIndent v "" "    " = failed err →
          execute s w (Encode inputs) = (Returned None None (Some err), []))
  ∧ (∀ marshaled req,
       json_MarshalIndent v "" "    " = ok marshaled →
       EvDo req ∈ (execute s w (Encode inputs)).2 →
       http.Body req = Some (bytes_NewReader marshaled)
       ∧ (stream_bytes <$> http.Body req) = Some marshaled
       ∧ (¬ suppliesContentType (Headers inputs) →
          http.Header req !! "Content-Type" = Some ["application/json"])
       ∧ (suppliesContentType (Headers inputs) →
          ∃ h k vs value,
            Headers inputs = Some h ∧ h !! k = Some vs
            ∧ CanonicalMIMEHeaderKey k = "Content-Type" ∧ last vs = Some value
            ∧ http.Header req !! "Content-Type" = Some [value])).
Proof.
  intros Hbody. split.
  - intros err Herr. rewrite execute_described. unfold described. simpl.
    by rewrite Hbody, Herr.
  - intros marshaled req Hm Hin.
    destruct (execute_sent s w _ req Hin)
      as (rb & ep & req0 & signer & rest & auth & Hrb & _ & Hreq & _ & _ & -> & _).
    simpl in Hrb. rewrite Hbody, Hm in Hrb. injection Hrb as <-.
    apply http_NewRequest_ok in Hreq as (Hh0 & Hb0 & _).
    assert (http.Body
              (outbound
                 (http.set_Header req0
                    (Header_Set
                       (mergeHeaders (initialHeader (Encode inputs) req0)
                          (rangeOf (callHeaders (Encode inputs))))
                       "date" (time_Format_UTC (Now w) time_RFC1123)))
                 auth (callQuery (Encode inputs)))
            = Some (bytes_NewReader marshaled)) as Hb by (by rewrite outbound_Body).
    split; [done|]. split; [by rewrite Hb|].
    rewrite outbound_lookup_other by apply content_type_not_reserved.
    simpl callHeaders. split.
    + intros Hno. rewrite not_supplied_untouched by done.
      unfold initialHeader, defaultsContentType. rewrite Hbody.
      rewrite bool_decide_true by done. simpl.
      destruct (Headers inputs) as [h|].
      * rewrite (not_supplied_Get h Hno). simpl. by rewrite lookup_Header_Set.
      * by rewrite lookup_Header_Set.
    + intros (h & k & vs & Hh & Hk & Hc & Hne). rewrite Hh. simpl.
      destruct (merge_lookup_supplied (map_range h) (initialHeader (Encode inputs) req0)
                  "Content-Type") as (k1 & vs1 & v1 & Hin1 & Hc1 & Hl1 & Hm1).
      { exists k, vs. by rewrite range_elem. }
      apply range_elem in Hin1. by exists h, k1, vs1, v1.
Qed.

(** C2. For a descriptor with a structured body: if serialization fails,
    [executeRequest] returns the encoder's error and sends nothing; if it
    succeeds and the later steps before the transport succeed, the call
    hands the built request to the transport, its body is a reader over
    the indented JSON serialization (prefix empty, indent of four
    spaces), and its Content-Type header is application/json when the
    caller's headers carry no content type and the caller's own value
    when they do. *)
Theorem C2_structured_body (s : Storage) (w : World) (inputs : RequestInput)
    (v : Value) :
  Body inputs = Some v →
  (∀ err, json_MarshalIndent v "" "    " = failed err →
          execute s w (Encode inputs) = (Returned None None (Some err), []))
  ∧ (∀ marshaled req0 auth,
       json_MarshalIndent v "" "    " = ok marshaled →
       stepsSucceed s w (Encode inputs) req0 auth →
       let req := builtRequest w (Encode inputs) req0 auth in
       last (execute s w (Encode inputs)).2 = Some (EvDo req)
       ∧ http.Body req = Some (bytes_NewReader marshaled)
       ∧ (stream_bytes <$> http.Body req) = Some marshaled
       ∧ (¬ suppliesContentType (Headers inputs) →
          http.Header req !! "Content-Type" = Some ["application/json"])
       ∧ (suppliesContentType (Headers inputs) →
          ∃ h k vs value,
            Headers inputs = Some h ∧ h !! k = Some vs
            ∧ CanonicalMIMEHeaderKey k = "Content-Type" ∧ last vs = Some value
            ∧ http.Header req !! "Content-Type" = Some [value])).
Proof.
  intros Hbody.
  destruct (structured_body_of_sent s w inputs v Hbody) as [Hfail Hsent].
  split; [done|].
  intros marshaled req0 auth Hm Hsteps req.
  destruct (execute_reaches s w _ req0 auth Hsteps) as (_ & _ & Hlast & Hin).
  split; [done|]. by apply Hsent.
Qed.

(** The body and the content type of a request [executeRequestNoEncode]
    has handed over. *)
Lemma stream_of_sent (s : Storage) (w : World)
    (inputs : RequestNoEncodeInput) (stream : Stream) (req : http.Request) :
  NE_Body inputs = Some stream →
  EvDo req ∈ (execute s w (NoEncode inputs)).2 →
  http.Body req = Some stream
  ∧ (stream_bytes <$> http.Body req) = Some (stream_bytes stream)
  ∧ (∀ key value,
       EvHeaderSet key value ∈ (execute s w (NoEncode inputs)).2 →
       CanonicalMIMEHeaderKey key = "Content-Type" →
       ∃ h vs, NE_Headers inputs = Some h ∧ h !! key = Some vs ∧ value ∈ vs)
  ∧ (¬ suppliesContentType (NE_Headers inputs) →
     http.Header req !! "Content-Type" = None).
Proof.
  intros Hbody Hin.
  destruct (execute_sent s w _ req Hin)
    as (rb & ep & req0 & signer & rest & auth & Hrb & _ & Hreq & _ & _ & Hr & _).
  simpl in Hrb. injection Hrb as <-.
  apply http_NewRequest_ok in Hreq as (Hh0 & Hb0 & _).
  assert (http.Body req = Some stream) as Hb.
  { subst req. rewrite outbound_Body. simpl. by rewrite Hb0. }
  split; [done|]. split; [by rewrite Hb|]. split.
  - intros key value Hev Hc.
    destruct (trace_header_writes s w _ key value Hev) as [Hi|[Hc'|Hk]].
    + by apply elem_of_nil in Hi.
    + done.
    + rewrite !elem_of_cons in Hk.
      destruct Hk as [->|[->|[->|[->|Hk]]]]; try done. by apply elem_of_nil in Hk.
  - intros Hno. subst req.
    rewrite outbound_lookup_other by apply content_type_not_reserved.
    simpl callHeaders. rewrite not_supplied_untouched by done.
    unfold initialHeader. simpl. by rewrite Hh0.
Qed.

(** C6. For a descriptor with a byte-stream body, when every step before
    the transport succeeds, [executeRequestNoEncode] hands the built
    request to the transport and that request carries the very input
    stream, hence its bytes; the only writes of a Content-Type header are
    those of the caller's own values, and without a caller content type
    the request has no Content-Type header. *)
Theorem C6_stream_passes_through (s : Storage) (w : World)
    (inputs : RequestNoEncodeInput) (stream : Stream) (req0 : http.Request)
    (auth : string) :
  NE_Body inputs = Some stream →
  stepsSucceed s w (NoEncode inputs) req0 auth →
  let req := builtRequest w (NoEncode inputs) req0 auth in
  last (execute s w (NoEncode inputs)).2 = Some (EvDo req)
  ∧ http.Body req = Some stream
  ∧ (stream_bytes <$> http.Body req) = Some (stream_bytes stream)
  ∧ (∀ key value,
       EvHeaderSet key value ∈ (execute s w (NoEncode inputs)).2 →
       CanonicalMIMEHeaderKey key = "Content-Type" →
       ∃ h vs, NE_Headers inputs = Some h ∧ h !! key = Some vs ∧ value ∈ vs)
  ∧ (¬ suppliesContentType (NE_Headers inputs) →
     http.Header req !! "Content-Type" = None).
Proof.
  intros Hbody Hsteps req.
  destruct (execute_reaches s w _ req0 auth Hsteps) as (_ & _ & Hlast & Hin).
  split; [done|]. by apply stream_of_sent.
Qed.

Lemma sent_headers (s : Storage) (w : World) (c : Call) (req : http.Request) :
  EvDo req ∈ (execute s w c).2 →
  ∃ signer rest auth,
    client.Authorizers (Client s) = signer :: rest
    ∧ Sign signer (time_Format_UTC (Now w) time_RFC1123) = ok auth
    ∧ http.Header req !! "Date" = Some [time_Format_UTC (Now w) time_RFC1123]
    ∧ http.Header req !! "Authorization" = Some [auth]
    ∧ http.Header req !! "Accept" = Some ["*/*"]
    ∧ http.Header req !! "User-Agent" = Some ["manta-go client API"].
Proof.
  intros Hin.
  destruct (execute_sent s w c req Hin)
    as (rb & ep & req0 & signer & rest & auth & _ & _ & _ & Hcons & Hsign & -> & _).
  exists signer, rest, auth. rewrite outbound_Header.
  split_and!; try done;
    repeat first [done | rewrite lookup_insert_eq | rewrite lookup_insert_ne by done].
Qed.

(** A signer invocation in a trace is the only one, is at index 0 and
    over the formatted current time, and comes right after the write of
    the date header. *)
Lemma sign_event_shape (s : Storage) (w : World) (c : Call) (i : nat) (d' : string) :
  let d := time_Format_UTC (Now w) time_RFC1123 in
  EvSign i d' ∈ (execute s w c).2 →
  i = 0%nat ∧ d' = d
  ∧ ∃ pre post,
      (execute s w c).2 = (pre ++ EvHeaderSet "date" d :: EvSign 0 d :: post)%list
      ∧ (∀ e, e ∈ pre → isHeaderSet e) ∧ (∀ e, e ∈ post → ¬ isSign e).
Proof.
  intros d Hin.
  assert (∀ post : list Event,
    (∀ e, e ∈ post → ¬ isSign e) →
    EvSign i d' ∈ (eventsBeforeSign w c ++ EvSign 0 d :: post)%list →
    i = 0%nat ∧ d' = d
    ∧ ∃ pre post',
        (eventsBeforeSign w c ++ EvSign 0 d :: post
         = pre ++ EvHeaderSet "date" d :: EvSign 0 d :: post')%list
        ∧ (∀ e, e ∈ pre → isHeaderSet e) ∧ (∀ e, e ∈ post' → ¬ isSign e)) as Hshape.
  { intros post Hpost Hev.
    apply elem_of_app in Hev as [Hev|Hev];
      [by apply eventsBeforeSign_headers in Hev|].
    apply elem_of_cons in Hev as [Hev|Hev]; [|by apply Hpost in Hev].
    injection Hev as -> ->. split_and!; try done.
    exists (initialEvents c ++ mergeEvents (rangeOf (callHeaders c)))%list, post.
    split_and!; try done.
    - unfold eventsBeforeSign. by rewrite <- !app_assoc.
    - intros e He. apply (eventsBeforeSign_headers w c). unfold eventsBeforeSign.
      rewrite app_assoc. apply elem_of_app. by left. }
  destruct (execute_ending s w c); simpl in Hin |- *.
  - by apply elem_of_nil in Hin.
  - by apply eventsBeforeSign_headers in Hin.
  - apply Hshape; [|done]. intros e He. by apply elem_of_nil in He.
  - apply Hshape; [|done]. intros e He. rewrite !elem_of_cons in He.
    destruct He as [->|[->|[->|[->|He]]]]; try (by intros []).
    by apply elem_of_nil in He.
Qed.

(** C3. In every call of either entry point: once the request is
    constructed and there is a first signer, the call writes the
    formatted current time to the date header and, as the very next
    step, invokes that signer over the same value, only header writes
    coming earlier and no second invocation later; no signer is ever
    invoked otherwise. When the signer signs, the call hands the built
    request to the transport with that value as its date header and the
    signer's output as its Authorization header. Two calls, whatever
    their descriptors, that see the same formatted time and have the same
    first signer hand over requests with the same Authorization
    header. *)
Theorem C3_signature_over_date (s : Storage) (w : World) (c : Call) :
  let d := time_Format_UTC (Now w) time_RFC1123 in
  (∀ req0 signer rest,
     requestConstructed w c req0 →
     client.Authorizers (Client s) = signer :: rest →
     ∃ pre post,
       (execute s w c).2 = (pre ++ EvHeaderSet "date" d :: EvSign 0 d :: post)%list
       ∧ (∀ e, e ∈ pre → isHeaderSet e) ∧ (∀ e, e ∈ post → ¬ isSign e))
  ∧ (∀ i d', EvSign i d' ∈ (execute s w c).2 → i = 0%nat ∧ d' = d)
  ∧ (∀ req0 auth,
       stepsSucceed s w c req0 auth →
       let req := builtRequest w c req0 auth in
       last (execute s w c).2 = Some (EvDo req)
       ∧ http.Header req !! "Date" = Some [d]
       ∧ http.Header req !! "Authorization" = Some [auth])
  ∧ (∀ s' w' c' req0 req0' auth auth',
       time_Format_UTC (Now w') time_RFC1123 = d →
       head (client.Authorizers (Client s')) = head (client.Authorizers (Client s)) →
       stepsSucceed s w c req0 auth →
       stepsSucceed s' w' c' req0' auth' →
       let req := builtRequest w c req0 auth in
       let req' := builtRequest w' c' req0' auth' in
       last (execute s w c).2 = Some (EvDo req)
       ∧ last (execute s' w' c').2 = Some (EvDo req')
       ∧ http.Header req !! "Authorization" = http.Header req' !! "Authorization").
Proof.
  intros d. split_and!.
  - intros req0 signer rest Hreq Hcons.
    destruct (execute_signs s w c req0 signer rest Hreq Hcons) as [post Htr].
    assert (EvSign 0 d ∈ (execute s w c).2) as Hin.
    { rewrite Htr. apply elem_of_app. right. apply list_elem_of_here. }
    by destruct (sign_event_shape s w c 0 d Hin) as (_ & _ & Hshape).
  - intros i d' Hin. by destruct (sign_event_shape s w c i d' Hin) as (-> & -> & _).
  - intros req0 auth Hsteps req.
    destruct (execute_reaches s w c req0 auth Hsteps) as (_ & _ & Hlast & _).
    destruct (built_reserved w c req0 auth) as (Hdate & Hauth & _).
    by split_and!.
  - intros s' w' c' req0 req0' auth auth' Hd Hsig Hsteps Hsteps' req req'.
    destruct (execute_reaches s w c req0 auth Hsteps) as (_ & _ & Hlast & _).
    destruct (execute_reaches s' w' c' req0' auth' Hsteps') as (_ & _ & Hlast' & _).
    destruct (built_reserved w c req0 auth) as (_ & Hauth & _).
    destruct (built_reserved w' c' req0' auth') as (_ & Hauth' & _).
    split_and!; try done. unfold req, req'. rewrite Hauth, Hauth'.
    destruct Hsteps as [_ (sg & rest & Hc1 & Hs1)].
    destruct Hsteps' as [_ (sg' & rest' & Hc2 & Hs2)].
    rewrite Hc1, Hc2 in Hsig. injection Hsig as ->.
    rewrite Hd in Hs2. fold d in Hs1. congruence.
Qed.

(** The caller's headers on a request handed over. *)
Lemma caller_headers_of_sent (s : Storage) (w : World) (c : Call)
    (h : gmap string (list string)) (req : http.Request) :
  callHeaders c = Some h →
  EvDo req ∈ (execute s w c).2 →
  (∀ key value,
     h !! key = Some [value] →
     CanonicalMIMEHeaderKey key ∉ reserved →
     (∀ key' values', h !! key' = Some values' →
        CanonicalMIMEHeaderKey key' = CanonicalMIMEHeaderKey key → key' = key) →
     http.Header req !! CanonicalMIMEHeaderKey key = Some [value])
  ∧ ∃ auth,
      http.Header req !! "Date" = Some [time_Format_UTC (Now w) time_RFC1123]
      ∧ http.Header req !! "Authorization" = Some [auth]
      ∧ http.Header req !! "Accept" = Some ["*/*"]
      ∧ http.Header req !! "User-Agent" = Some ["manta-go client API"].
Proof.
  intros Hh Hin. split.
  - intros key value Hkey Hres Huniq.
    destruct (execute_sent s w c req Hin)
      as (rb & ep & req0 & signer & rest & auth & _ & _ & _ & _ & _ & -> & _).
    rewrite outbound_lookup_other by done. rewrite Hh. simpl.
    destruct (merge_lookup_supplied (map_range h) (initialHeader c req0)
                (CanonicalMIMEHeaderKey key)) as (k1 & vs1 & v1 & Hin1 & Hc1 & Hl1 & ->).
    { exists key, [value]. by rewrite range_elem. }
    apply range_elem in Hin1. pose proof (Huniq k1 vs1 Hin1 Hc1) as ->.
    rewrite Hkey in Hin1. injection Hin1 as <-. simpl in Hl1. by injection Hl1 as ->.
  - destruct (sent_headers s w c req Hin) as (_ & _ & auth & _ & _ & ? & ? & ? & ?).
    by exists auth.
Qed.

(** C4, as the code has it. The caller's headers are merged before the
    executor writes the date, Authorization, Accept and User-Agent
    headers. When every step before the transport succeeds, the call
    hands the built request to the transport; on it, a caller header
    with a single value, whose canonical name is none of those four and
    is shared by no other caller key, stands under its canonical name,
    whatever default stood there; and the four headers hold the
    executor's values, the formatted time, the signer's output, "*/*"
    and the client's name, whatever the caller supplied. *)
Theorem C4_caller_headers (s : Storage) (w : World) (c : Call)
    (h : gmap string (list string)) (req0 : http.Request) (auth : string) :
  callHeaders c = Some h →
  stepsSucceed s w c req0 auth →
  let req := builtRequest w c req0 auth in
  last (execute s w c).2 = Some (EvDo req)
  ∧ (∀ key value,
       h !! key = Some [value] →
       CanonicalMIMEHeaderKey key ∉ reserved →
       (∀ key' values', h !! key' = Some values' →
          CanonicalMIMEHeaderKey key' = CanonicalMIMEHeaderKey key → key' = key) →
       http.Header req !! CanonicalMIMEHeaderKey key = Some [value])
  ∧ http.Header req !! "Date" = Some [time_Format_UTC (Now w) time_RFC1123]
  ∧ http.Header req !! "Authorization" = Some [auth]
  ∧ http.Header req !! "Accept" = Some ["*/*"]
  ∧ http.Header req !! "User-Agent" = Some ["manta-go client API"].
Proof.
  intros Hh Hsteps req.
  destruct (execute_reaches s w c req0 auth Hsteps) as (_ & _ & Hlast & Hin).
  split; [done|]. split.
  - by destruct (caller_headers_of_sent s w c h req Hh Hin) as [Hcaller _].
  - apply built_reserved.
Qed.

Lemma outbound_URL (req : http.Request) (auth : string)
    (q : option (gmap string (list string))) :
  http.URL (outbound req auth q)
  = match q with
    | Some q => url.set_RawQuery (http.URL req) (Values_Encode q)
    | None => http.URL req
    end.
Proof. unfold outbound. by destruct q. Qed.

(** The URL of a request handed over, and the outcome of a base URL that
    does not parse. *)
Lemma endpoint_of_sent (s : Storage) (w : World) (c : Call) :
  (∀ req, EvDo req ∈ (execute s w c).2 →
     ∃ base u,
       url_Parse (Getenv w "MANTA_URL") = ok base
       ∧ url_Parse (url_String (url.set_Path base (callPath c))) = ok u
       ∧ http.URL req
         = let u' := url.set_Host u (removeEmptyPort (url.Host u)) in
           match callQuery c with
           | Some q => url.set_RawQuery u' (Values_Encode q)
           | None => u'
           end)
  ∧ (∀ err, url_Parse (Getenv w "MANTA_URL") = failed err →
       ¬ serializationFails c →
       execute s w c
       = (Returned None None (Some (Wrapf "Error parsing MANTA_URL: {{err}}" err)), [])).
Proof.
  split.
  - intros req Hin.
    destruct (execute_sent s w c req Hin)
      as (rb & ep & req0 & signer & rest & auth & _ & Hep & Hreq & _ & _ & -> & _).
    apply http_NewRequest_ok in Hreq as (_ & _ & u & Hu & Hurl).
    exists ep, u. split_and!; try done.
    rewrite outbound_URL. simpl. by rewrite Hurl.
  - intros err Hp Hser. rewrite execute_described. unfold described.
    destruct (requestBodyOf c) as [rb|e] eqn:Hrb; [by rewrite Hp|].
    destruct Hser. destruct c as [i|i]; simpl in *; [|done].
    destruct (Body i) as [v|]; [|done].
    destruct (json_MarshalIndent v "" "    ") as [m|e']; [done|]. by exists e'.
Qed.

(** C8, as the code has it. When every step before the transport
    succeeds, the call hands the built request to the transport, and the
    URL of that request is the parse of the text of the base URL, read
    from MANTA_URL, with its path replaced by the descriptor's path; when
    the descriptor has query parameters, the raw query is their encoding.
    A base URL that does not parse makes the call return the parser's
    error wrapped as "Error parsing MANTA_URL" and send nothing, unless
    the serialization of a structured body has failed before. *)
Theorem C8_endpoint (s : Storage) (w : World) (c : Call) :
  (∀ req0 auth,
     stepsSucceed s w c req0 auth →
     let req := builtRequest w c req0 auth in
     last (execute s w c).2 = Some (EvDo req)
     ∧ ∃ base u,
         url_Parse (Getenv w "MANTA_URL") = ok base
         ∧ url_Parse (url_String (url.set_Path base (callPath c))) = ok u
         ∧ http.URL req
           = let u' := url.set_Host u (removeEmptyPort (url.Host u)) in
             match callQuery c with
             | Some q => url.set_RawQuery u' (Values_Encode q)
             | None => u'
             end)
  ∧ (∀ err, url_Parse (Getenv w "MANTA_URL") = failed err →
       ¬ serializationFails c →
       execute s w c
       = (Returned None None (Some (Wrapf "Error parsing MANTA_URL: {{err}}" err)), [])).
Proof.
  destruct (endpoint_of_sent s w c) as [Hsent Hfail]. split; [|done].
  intros req0 auth Hsteps req.
  destruct (execute_reaches s w c req0 auth Hsteps) as (_ & _ & Hlast & Hin).
  split; [done|]. by apply Hsent.
Qed.

(** C9. Both entry points take the signer at index 0 of the client's
    [Authorizers]. With a non-empty list the call does not panic, invokes
    no signer but the one at index 0, and behaves as if that signer were
    the only one. With an empty list no call reaches the signer or the
    transport: it panics with an index out of range as soon as the
    request has been constructed, and otherwise has failed before with
    an error. *)
Theorem C9_first_authorizer (s : Storage) (w : World) (c : Call) :
  (∀ signer rest,
     client.Authorizers (Client s) = signer :: rest →
     (∀ msg, (execute s w c).1 ≠ Panicked msg)
     ∧ (∀ i d, EvSign i d ∈ (execute s w c).2 → i = 0%nat)
     ∧ execute s w c
       = execute
           (mkStorage (client.mkClient [signer] (client.HTTPClient_Do (Client s))))
           w c)
  ∧ (client.Authorizers (Client s) = [] →
     (∀ i d, EvSign i d ∉ (execute s w c).2)
     ∧ (∀ req, EvDo req ∉ (execute s w c).2)
     ∧ ((execute s w c).1 = Panicked "runtime error: index out of range"
        ∨ ∃ err, execute s w c = (Returned None None (Some err), []))
     ∧ (∀ requestBody endpoint req0,
          requestBodyOf c = ok requestBody →
          url_Parse (Getenv w "MANTA_URL") = ok endpoint →
          http_NewRequest (callMethod c)
            (url_String (url.set_Path endpoint (callPath c))) requestBody = ok req0 →
          (execute s w c).1 = Panicked "runtime error: index out of range")).
Proof.
  split.
  - intros signer rest Hcons. split_and!.
    + intros msg Hp. destruct (execute_ending s w c) as [| Hnil | |]; try done.
      * by rewrite Hcons in Hnil.
      * revert Hp. unfold classify. repeat case_match; done.
    + intros i d Hin.
      by destruct (sign_event_shape s w c i d Hin) as [-> _].
    + rewrite !execute_described. unfold described, signAndSend. simpl.
      by rewrite Hcons.
  - intros Hnil.
    assert (∀ e, e ∈ (execute s w c).2 → isHeaderSet e) as Hhdr.
    { intros e He. destruct (execute_ending s w c) as [| _ | ?? ? Hcons |?????? _ _ _ Hcons];
        simpl in He.
      - by apply elem_of_nil in He.
      - by apply eventsBeforeSign_headers in He.
      - by rewrite Hnil in Hcons.
      - by rewrite Hnil in Hcons. }
    split_and!.
    + intros i d Hin. by apply Hhdr in Hin.
    + intros req Hin. by apply Hhdr in Hin.
    + rewrite execute_described. unfold described, signAndSend.
      rewrite Hnil. simpl. repeat case_match; eauto.
    + intros rb ep req0 Hrb Hep Hreq. rewrite execute_described.
      unfold described, signAndSend. rewrite Hrb, Hep, Hreq, Hnil. simpl.
      by case_match.
Qed.

End Properties.

(** ** The scenarios, checked *)

(** The steps before the transport succeed in the scenarios. *)
Ltac steps_hold body :=
  split;
  [ exists body, (url.mkURL "" "" None "manta.example" "" "" false "" "");
    split_and!; vm_compute; reflexivity
  | exists (Mock.signer "k"), (@nil Signer); split; vm_compute; reflexivity ].

Section ScenarioChecks.
Import Mock Scenarios.

(** The last event of a trace is in it. *)
Lemma sent_last (s : Storage) (w : World) (c : Call) (req : http.Request) :
  last (execute s w c).2 = Some (EvDo req) → EvDo req ∈ (execute s w c).2.
Proof. apply last_Some_elem_of. Qed.

(** The two end-to-end scenarios of the specification. *)
Example createJob_200 :
  execute (storage [signer "k"] 200 idBody) manta (Encode createJob)
  = (Returned (Some (bytes_NewReader (list_byte_of_string idBody))) (Some ∅) None,
     [EvHeaderSet "Content-Type" "application/json";
      EvHeaderSet "date" epoch; EvSign 0 epoch;
      EvHeaderSet "Authorization" ("Signature k " +:+ epoch);
      EvHeaderSet "Accept" "*/*"; EvHeaderSet "User-Agent" "manta-go client API";
      EvDo createJobRequest]).
Proof. vm_compute. reflexivity. Qed.

Example createJob_409 :
  (execute (storage [signer "k"] 409 conflictBody) manta (Encode createJob)).1
  = Returned None None (Some (ServiceError (mkMantaError 409 "Conflict" "x"))).
Proof. vm_compute. reflexivity. Qed.

Example canon_date : CanonicalMIMEHeaderKey "date" = "Date".
Proof. reflexivity. Qed.

Example canon_user_agent : CanonicalMIMEHeaderKey "user-AGENT" = "User-Agent".
Proof. reflexivity. Qed.

Example canon_invalid : CanonicalMIMEHeaderKey "x y" = "x y".
Proof. reflexivity. Qed.

(** C1 on the scenario of a 409 answer. *)
Lemma C1_witness :
  (last (execute (storage [signer "k"] 409 conflictBody) manta (Encode createJob)).2
   = Some (EvDo (builtRequest manta (Encode createJob) createJobFresh signature))
   ∧ (execute (storage [signer "k"] 409 conflictBody) manta (Encode createJob)).1
     = Returned None None
         (Some (ServiceError
            {| StatusCode := http.StatusCode (response 409 conflictBody);
               Code := default "" (payload_code (mkPayload (Some "Conflict") (Some "x")));
               Message :=
                 default "" (payload_message (mkPayload (Some "Conflict") (Some "x"))) |})))
  ∧ (last (execute (storage [signer "k"] 409 conflictBody) manta (NoEncode putObject)).2
     = Some (EvDo (builtRequest manta (NoEncode putObject) putObjectFresh signature))
     ∧ (execute (storage [signer "k"] 409 conflictBody) manta (NoEncode putObject)).1
       = Returned None None
           (Some (ServiceError
              {| StatusCode := http.StatusCode (response 409 conflictBody);
                 Code := default "" (payload_code (mkPayload (Some "Conflict") (Some "x")));
                 Message :=
                   default "" (payload_message (mkPayload (Some "Conflict") (Some "x"))) |}))).
Proof.
  split.
  - apply (C1_service_error (storage [signer "k"] 409 conflictBody) manta
             (Encode createJob) createJobFresh signature (response 409 conflictBody)
             (mkPayload (Some "Conflict") (Some "x"))).
    + steps_hold (Some (bytes_NewReader (list_byte_of_string "{ name: WordCount }"))).
    + reflexivity.
    + unfold isSuccess. simpl. lia.
    + vm_compute. reflexivity.
  - apply (C1_service_error (storage [signer "k"] 409 conflictBody) manta
             (NoEncode putObject) putObjectFresh signature (response 409 conflictBody)
             (mkPayload (Some "Conflict") (Some "x"))).
    + steps_hold (Some upload).
    + reflexivity.
    + unfold isSuccess. simpl. lia.
    + vm_compute. reflexivity.
Defined.

(** C7 on the scenario of a 200 answer. *)
Lemma C7_witness :
  (last (execute (storage [signer "k"] 200 idBody) manta (Encode createJob)).2
   = Some (EvDo (builtRequest manta (Encode createJob) createJobFresh signature))
   ∧ (execute (storage [signer "k"] 200 idBody) manta (Encode createJob)).1
     = Returned (Some (http.RespBody (response 200 idBody)))
         (http.RespHeader (response 200 idBody)) None)
  ∧ (last (execute (storage [signer "k"] 200 idBody) manta (NoEncode putObject)).2
     = Some (EvDo (builtRequest manta (NoEncode putObject) putObjectFresh signature))
     ∧ (execute (storage [signer "k"] 200 idBody) manta (NoEncode putObject)).1
       = Returned (Some (http.RespBody (response 200 idBody)))
           (http.RespHeader (response 200 idBody)) None).
Proof.
  split.
  - apply (C7_success_passes_response (storage [signer "k"] 200 idBody) manta
             (Encode createJob) createJobFresh signature (response 200 idBody)).
    + steps_hold (Some (bytes_NewReader (list_byte_of_string "{ name: WordCount }"))).
    + reflexivity.
    + unfold isSuccess. simpl. lia.
  - apply (C7_success_passes_response (storage [signer "k"] 200 idBody) manta
             (NoEncode putObject) putObjectFresh signature (response 200 idBody)).
    + steps_hold (Some upload).
    + reflexivity.
    + unfold isSuccess. simpl. lia.
Defined.

(** C10 on the scenario of a 409 answer. *)
Lemma C10_witness :
  (None : option Stream) = None ∧ (None : option Header) = None.
Proof.
  apply (C10_error_returns_nil_resources (storage [signer "k"] 409 conflictBody) manta
           (Encode createJob) None None
           (ServiceError (mkMantaError 409 "Conflict" "x"))).
  vm_compute. reflexivity.
Defined.

(** C2 on the job creation request. *)
Lemma C2_witness :
  last (execute (storage [signer "k"] 200 idBody) manta (Encode createJob)).2
  = Some (EvDo (builtRequest manta (Encode createJob) createJobFresh signature))
  ∧ http.Body (builtRequest manta (Encode createJob) createJobFresh signature)
    = Some (bytes_NewReader (list_byte_of_string "{ name: WordCount }"))
  ∧ http.Header (builtRequest manta (Encode createJob) createJobFresh signature)
    !! "Content-Type" = Some ["application/json"].
Proof.
  destruct (C2_structured_body (storage [signer "k"] 200 idBody) manta createJob
              (Some "{ name: WordCount }") eq_refl) as [_ Hsent].
  destruct (Hsent (list_byte_of_string "{ name: WordCount }") createJobFresh signature
              eq_refl)
    as (Hlast & Hbody & _ & Hdefault & _).
  - steps_hold (Some (bytes_NewReader (list_byte_of_string "{ name: WordCount }"))).
  - split_and!; [exact Hlast | exact Hbody |]. apply Hdefault.
    intros (h & k & vs & Hh & _). discriminate Hh.
Defined.

(** C3 on a job creation and an upload that share clock and first signer. *)
Lemma C3_witness :
  (∃ pre post,
     (execute (storage [signer "k"] 200 idBody) manta (Encode createJob)).2
     = (pre ++ EvHeaderSet "date" (time_Format_UTC (Now manta) time_RFC1123)
            :: EvSign 0 (time_Format_UTC (Now manta) time_RFC1123) :: post)%list
     ∧ (∀ e, e ∈ pre → isHeaderSet e) ∧ (∀ e, e ∈ post → ¬ isSign e))
  ∧ (last (execute (storage [signer "k"] 200 idBody) manta (Encode createJob)).2
     = Some (EvDo (builtRequest manta (Encode createJob) createJobFresh signature))
     ∧ last (execute (storage [signer "k"; brokenSigner] 409 conflictBody) manta
               (NoEncode putObject)).2
       = Some (EvDo (builtRequest manta (NoEncode putObject) putObjectFresh signature))
     ∧ http.Header (builtRequest manta (Encode createJob) createJobFresh signature)
       !! "Authorization"
       = http.Header (builtRequest manta (NoEncode putObject) putObjectFresh signature)
         !! "Authorization").
Proof.
  destruct (C3_signature_over_date (storage [signer "k"] 200 idBody) manta
              (Encode createJob)) as (Hsigns & _ & _ & Htwo).
  split.
  - apply (Hsigns createJobFresh (signer "k") []); [|reflexivity].
    exists (Some (bytes_NewReader (list_byte_of_string "{ name: WordCount }"))),
      (url.mkURL "" "" None "manta.example" "" "" false "" "").
    split_and!; vm_compute; reflexivity.
  - apply (Htwo (storage [signer "k"; brokenSigner] 409 conflictBody) manta
             (NoEncode putObject) createJobFresh putObjectFresh signature signature).
    + reflexivity.
    + reflexivity.
    + steps_hold (Some (bytes_NewReader (list_byte_of_string "{ name: WordCount }"))).
    + split;
        [ exists (Some upload), (url.mkURL "" "" None "manta.example" "" "" false "" "");
          split_and!; vm_compute; reflexivity
        | exists (signer "k"), [brokenSigner]; split; vm_compute; reflexivity ].
Defined.

(** C4 on a job creation that carries a request id. *)
Lemma C4_witness :
  (last (execute (storage [signer "k"] 200 idBody) manta (Encode createJobWithId)).2
   = Some (EvDo (builtRequest manta (Encode createJobWithId) createJobFresh signature))
   ∧ http.Header (builtRequest manta (Encode createJobWithId) createJobFresh signature)
     !! CanonicalMIMEHeaderKey "x-request-id" = Some ["42"]
   ∧ http.Header (builtRequest manta (Encode createJobWithId) createJobFresh signature)
     !! "Authorization" = Some [signature])
  ∧ (last (execute (storage [signer "k"] 200 idBody) manta (NoEncode putObjectWithId)).2
     = Some (EvDo (builtRequest manta (NoEncode putObjectWithId) putObjectFresh signature))
     ∧ http.Header (builtRequest manta (NoEncode putObjectWithId) putObjectFresh signature)
       !! CanonicalMIMEHeaderKey "x-request-id" = Some ["42"]
     ∧ http.Header (builtRequest manta (NoEncode putObjectWithId) putObjectFresh signature)
       !! "Authorization" = Some [signature]).
Proof.
  assert (CanonicalMIMEHeaderKey "x-request-id" ∉ reserved) as Hfree.
  { change (CanonicalMIMEHeaderKey "x-request-id") with "X-Request-Id".
    unfold reserved. repeat (apply not_elem_of_cons; split; [done|]).
    apply not_elem_of_nil. }
  assert (∀ key' values', requestId !! key' = Some values' →
            CanonicalMIMEHeaderKey key' = CanonicalMIMEHeaderKey "x-request-id" →
            key' = "x-request-id") as Halone.
  { intros key' values' Hl _. unfold requestId in Hl.
    by apply lookup_singleton_Some in Hl as [<- _]. }
  split.
  - destruct (C4_caller_headers (storage [signer "k"] 200 idBody) manta
                (Encode createJobWithId) requestId createJobFresh signature eq_refl)
      as (Hlast & Hcaller & _ & Hauth & _).
    + steps_hold (Some (bytes_NewReader (list_byte_of_string "{ name: WordCount }"))).
    + split_and!; [exact Hlast | | exact Hauth].
      apply (Hcaller "x-request-id" "42"); [apply lookup_singleton_eq | exact Hfree | exact Halone].
  - destruct (C4_caller_headers (storage [signer "k"] 200 idBody) manta
                (NoEncode putObjectWithId) requestId putObjectFresh signature eq_refl)
      as (Hlast & Hcaller & _ & Hauth & _).
    + steps_hold (Some upload).
    + split_and!; [exact Hlast | | exact Hauth].
      apply (Hcaller "x-request-id" "42"); [apply lookup_singleton_eq | exact Hfree | exact Halone].
Defined.

(** C4 as stated fails: the caller's Accept value is overwritten by the
    executor's. *)
Lemma C4_counterexample :
  ¬ callerValuesPresent (storage [signer "k"] 200 idBody) manta
      (Encode createJobAcceptingJSON).
Proof.
  intros Hclaim.
  destruct (Hclaim acceptJSON createJobRequest "Accept" ["application/json"]
              "application/json" eq_refl) as (sent & Hsent & Hin).
  - apply sent_last. vm_compute. reflexivity.
  - apply lookup_singleton_eq.
  - apply list_elem_of_here.
  - vm_compute in Hsent. injection Hsent as <-.
    apply list_elem_of_singleton in Hin. discriminate Hin.
Qed.

(** C5 on a 503 answer whose body is not JSON. *)
Lemma C5_witness :
  (last (execute (storage [signer "k"] 503 "oops") manta (Encode createJob)).2
   = Some (EvDo (builtRequest manta (Encode createJob) createJobFresh signature))
   ∧ (execute (storage [signer "k"] 503 "oops") manta (Encode createJob)).1
     = Returned None None
         (Some (Wrapf "Error decoding error response: {{err}}"
                  (errorString "invalid character in JSON input")))
   ∧ ∀ e : MantaError,
       Wrapf "Error decoding error response: {{err}}"
         (errorString "invalid character in JSON input") ≠ ServiceError e)
  ∧ (last (execute (storage [signer "k"] 503 "oops") manta (NoEncode putObject)).2
     = Some (EvDo (builtRequest manta (NoEncode putObject) putObjectFresh signature))
     ∧ (execute (storage [signer "k"] 503 "oops") manta (NoEncode putObject)).1
       = Returned None None
           (Some (Wrapf "Error decoding error response: {{err}}"
                    (errorString "invalid character in JSON input")))
     ∧ ∀ e : MantaError,
         Wrapf "Error decoding error response: {{err}}"
           (errorString "invalid character in JSON input") ≠ ServiceError e).
Proof.
  split.
  - apply (C5_decode_error (storage [signer "k"] 503 "oops") manta (Encode createJob)
             createJobFresh signature (response 503 "oops")).
    + steps_hold (Some (bytes_NewReader (list_byte_of_string "{ name: WordCount }"))).
    + reflexivity.
    + unfold isSuccess. simpl. lia.
    + vm_compute. reflexivity.
  - apply (C5_decode_error (storage [signer "k"] 503 "oops") manta (NoEncode putObject)
             putObjectFresh signature (response 503 "oops")).
    + steps_hold (Some upload).
    + reflexivity.
    + unfold isSuccess. simpl. lia.
    + vm_compute. reflexivity.
Defined.

(** C5 as stated fails: a 404 and a 503 with the same undecodable body
    give the caller the same error. *)
Lemma C5_counterexample :
  ¬ statusSurfaced (storage [signer "k"] 404 "oops") (storage [signer "k"] 503 "oops")
      manta (Encode createJob).
Proof.
  intros Hclaim.
  assert (http.StatusCode (response 404 "oops") = http.StatusCode (response 503 "oops"))
    as Hcodes; [|discriminate Hcodes].
  apply (Hclaim createJobRequest createJobRequest _ _
           (errorString "invalid character in JSON input")
           (errorString "invalid character in JSON input")).
  - apply sent_last. vm_compute. reflexivity.
  - reflexivity.
  - vm_compute. reflexivity.
  - apply sent_last. vm_compute. reflexivity.
  - reflexivity.
  - vm_compute. reflexivity.
  - vm_compute. reflexivity.
Qed.

(** C6 on an upload whose stream has been read up to offset 5. *)
Lemma C6_witness :
  last (execute (storage [signer "k"] 200 idBody) manta (NoEncode putObject)).2
  = Some (EvDo (builtRequest manta (NoEncode putObject) putObjectFresh signature))
  ∧ http.Body (builtRequest manta (NoEncode putObject) putObjectFresh signature)
    = Some upload
  ∧ (stream_bytes
       <$> http.Body (builtRequest manta (NoEncode putObject) putObjectFresh signature))
    = Some (stream_bytes upload)
  ∧ http.Header (builtRequest manta (NoEncode putObject) putObjectFresh signature)
    !! "Content-Type" = None.
Proof.
  destruct (C6_stream_passes_through (storage [signer "k"] 200 idBody) manta
              putObject upload putObjectFresh signature eq_refl)
    as (Hlast & Hbody & Hbytes & _ & Hnone).
  - steps_hold (Some upload).
  - split_and!; [exact Hlast | exact Hbody | exact Hbytes |].
    apply Hnone. intros (h & k & vs & Hh & _). discriminate Hh.
Defined.

(** C8 on the job creation request, with a well-formed and a malformed
    base URL. *)
Lemma C8_witness :
  (last (execute (storage [signer "k"] 200 idBody) manta (Encode createJob)).2
   = Some (EvDo (builtRequest manta (Encode createJob) createJobFresh signature))
   ∧ http.URL (builtRequest manta (Encode createJob) createJobFresh signature)
     = url.mkURL "" "" None "manta.example" "/jobs" "" false "" "")
  ∧ execute (storage [signer "k"] 200 idBody) (world ":9000") (Encode createJob)
    = (Returned None None
         (Some (Wrapf "Error parsing MANTA_URL: {{err}}"
                  (errorString "parse: missing protocol scheme"))), []).
Proof.
  split.
  - destruct (C8_endpoint (storage [signer "k"] 200 idBody) manta (Encode createJob))
      as [Hurl _].
    destruct (Hurl createJobFresh signature) as (Hlast & base & u & Hbase & Hu & Heq).
    + steps_hold (Some (bytes_NewReader (list_byte_of_string "{ name: WordCount }"))).
    + split; [exact Hlast|]. rewrite Heq.
      injection Hbase as <-. injection Hu as <-. reflexivity.
  - apply (C8_endpoint (storage [signer "k"] 200 idBody) (world ":9000")
             (Encode createJob)).
    + reflexivity.
    + intros (err & Herr). discriminate Herr.
Defined.

(** C8 as stated fails: with a body the encoder refuses, a malformed base
    URL is never looked at and the error is the encoder's. *)
Lemma C8_counterexample :
  ¬ malformedBaseIsConfigurationError (storage [signer "k"] 200 idBody) (world ":9000")
      (Encode createJobFromChannel).
Proof.
  intros Hclaim.
  destruct (Hclaim (errorString "parse: missing protocol scheme") eq_refl)
    as (err' & Hout).
  vm_compute in Hout. discriminate Hout.
Qed.

(** C9 with a second signer that is never asked, and with no signer. *)
Lemma C9_witness :
  execute (storage [signer "k"; brokenSigner] 200 idBody) manta (Encode createJob)
  = execute (storage [signer "k"] 200 idBody) manta (Encode createJob)
  ∧ (execute (storage [] 200 idBody) manta (NoEncode putObject)).1
    = Panicked "runtime error: index out of range".
Proof.
  split.
  - destruct (C9_first_authorizer (storage [signer "k"; brokenSigner] 200 idBody) manta
                (Encode createJob)) as [Hfirst _].
    destruct (Hfirst (signer "k") [brokenSigner] eq_refl) as (_ & _ & Hsame).
    exact Hsame.
  - destruct (C9_first_authorizer (storage [] 200 idBody) manta (NoEncode putObject))
      as [_ Hempty].
    destruct (Hempty eq_refl) as (_ & _ & _ & Hpanic).
    by eapply Hpanic.
Defined.

End ScenarioChecks.

(** ** Further properties of the request path *)

Section MoreProperties.
Context `{Platform}.

(** [executeRequest] does what [executeRequestNoEncode] does on the
    serialized body whenever it writes no default content type: with no
    structured body at all, and with a body that serializes while the
    caller's headers answer [Get("Content-Type")] with a non-empty
    string. *)
Theorem entry_points_agree (s : Storage) (w : World) (inputs : RequestInput) :
  (Body inputs = None →
   execute s w (Encode inputs) = execute s w (NoEncode (asNoEncode inputs None)))
  ∧ (∀ v marshaled h,
       Body inputs = Some v →
       json_MarshalIndent v "" "    " = ok marshaled →
       Headers inputs = Some h →
       Header_Get h "Content-Type" ≠ "" →
       execute s w (Encode inputs)
       = execute s w (NoEncode (asNoEncode inputs (Some (bytes_NewReader marshaled))))).
Proof.
  split.
  - intros Hb. rewrite !execute_described. unfold described. simpl.
    rewrite Hb. simpl. done.
  - intros v m h Hb Hm Hh Hget. rewrite !execute_described. unfold described. simpl.
    rewrite Hb, Hm, Hh. apply String.eqb_neq in Hget. rewrite Hget.
    rewrite andb_false_r. done.
Qed.

Lemma classify_nil_error (sent : Result http.Response) (b : option Stream)
    (h : option Header) :
  classify sent = Returned b h None →
  ∃ resp, sent = ok resp ∧ isSuccess (http.StatusCode resp)
          ∧ b = Some (http.RespBody resp) ∧ h = http.RespHeader resp.
Proof.
  unfold classify. destruct sent as [resp|err]; [|done].
  destruct (Z.leb _ _ && Z.ltb _ _) eqn:Hs.
  - intros [= <- <-]. exists resp. split_and!; try done.
    apply andb_prop in Hs as [H1 H2]. apply Z.leb_le in H1. apply Z.ltb_lt in H2.
    unfold isSuccess, http.StatusOK, http.StatusMultipleChoices in *. lia.
  - by destruct (json_Decode _).
Qed.

(** A nil error comes only from an answer of the transport with a status
    in [200,300): the call has then handed exactly that request over as
    its last step, and returns the answer's body, non-nil, and the
    answer's header map as the transport gave it. *)
Theorem nil_error_only_on_success (s : Storage) (w : World) (c : Call)
    (body : option Stream) (header : option Header) :
  (execute s w c).1 = Returned body header None →
  ∃ req resp,
    last (execute s w c).2 = Some (EvDo req)
    ∧ client.HTTPClient_Do (Client s) req = ok resp
    ∧ isSuccess (http.StatusCode resp)
    ∧ body = Some (http.RespBody resp)
    ∧ header = http.RespHeader resp.
Proof.
  destruct (execute_ending s w c) as [| | |rb ep req0 signer rest auth ????? d req];
    simpl; try done.
  intros Hc. apply classify_nil_error in Hc as (resp & Hdo & Hs & -> & ->).
  exists req, resp. split_and!; try done.
  change [EvSign 0 d; EvHeaderSet "Authorization" auth; EvHeaderSet "Accept" "*/*";
          EvHeaderSet "User-Agent" "manta-go client API"; EvDo req]
    with ([EvSign 0 d; EvHeaderSet "Authorization" auth; EvHeaderSet "Accept" "*/*";
           EvHeaderSet "User-Agent" "manta-go client API"] ++ [EvDo req])%list.
  by rewrite app_assoc, last_snoc.
Qed.

Lemma classify_error_forms (sent : Result http.Response) (b : option Stream)
    (h : option Header) (e : error) :
  classify sent = Returned b h (Some e) →
  (∃ m, e = ServiceError m ∧ ¬ isSuccess (StatusCode m))
  ∨ (∃ format inner, e = Wrapf format inner ∧ format ∈ wrapFormats).
Proof.
  unfold classify, wrapFormats. destruct sent as [resp|err].
  - destruct (Z.leb _ _ && Z.ltb _ _) eqn:Hs; [done|].
    destruct (json_Decode _) as [p|err]; intros [= _ _ <-].
    + left. eexists. split; [done|]. simpl.
      unfold isSuccess, http.StatusOK, http.StatusMultipleChoices in *. intros [H1 H2].
      apply Z.leb_le in H1. apply Z.ltb_lt in H2. by rewrite H1, H2 in Hs.
    + right. do 2 eexists. split; [done|]. rewrite !elem_of_cons. tauto.
  - intros [= _ _ <-]. right. do 2 eexists. split; [done|].
    rewrite !elem_of_cons. tauto.
Qed.

(** Every non-nil error a call returns is of one of three kinds: a
    [MantaError], whose status code is then outside [200,300); an error
    of one of the steps, wrapped with that step's message; or, from
    [executeRequest] only, the bare error of the JSON encoder. *)
Theorem returned_error_kinds (s : Storage) (w : World) (c : Call)
    (body : option Stream) (header : option Header) (e : error) :
  (execute s w c).1 = Returned body header (Some e) →
  (∃ m, e = ServiceError m ∧ ¬ isSuccess (StatusCode m))
  ∨ (∃ format inner, e = Wrapf format inner ∧ format ∈ wrapFormats)
  ∨ (∃ inputs v, c = Encode inputs ∧ Body inputs = Some v
                 ∧ json_MarshalIndent v "" "    " = failed e).
Proof.
  rewrite execute_described. unfold described.
  assert (∀ q hs req t,
    (signAndSend s w q hs req t).1 = Returned body header (Some e) →
    (∃ m, e = ServiceError m ∧ ¬ isSuccess (StatusCode m))
    ∨ (∃ format inner, e = Wrapf format inner ∧ format ∈ wrapFormats)) as Htail.
  { intros q hs req t. unfold signAndSend.
    destruct (client.Authorizers (Client s) !! 0%nat) as [signer|]; [|done].
    destruct (Sign signer _) as [auth|err]; simpl.
    - apply classify_error_forms.
    - intros [= _ _ <-]. right. do 2 eexists. split; [done|].
      unfold wrapFormats. rewrite !elem_of_cons. tauto. }
  destruct (requestBodyOf c) as [rb|err] eqn:Hrb.
  - destruct (url_Parse _) as [ep|err].
    + destruct (http_NewRequest _ _ _) as [req0|err].
      * destruct (defaultsContentType c); intros Hr;
          apply Htail in Hr as [?|?]; auto.
      * intros [= _ _ <-]. right. left. do 2 eexists. split; [done|].
        unfold wrapFormats. rewrite !elem_of_cons. tauto.
    + intros [= _ _ <-]. right. left. do 2 eexists. split; [done|].
      unfold wrapFormats. rewrite !elem_of_cons. tauto.
  - intros [= _ _ <-]. right. right.
    destruct c as [i|i]; simpl in Hrb; [|done].
    destruct (Body i) as [v|] eqn:Hb; [|done].
    destruct (json_MarshalIndent v "" "    ") as [m|err'] eqn:Hm; [done|].
    injection Hrb as ->. by exists i, v.
Qed.

(** A call hands at most one request to the transport, as its last
    step and after the signer has been invoked: there is no retry,
    whatever the transport answers. *)
Theorem one_request_per_call (s : Storage) (w : World) (c : Call)
    (req : http.Request) :
  EvDo req ∈ (execute s w c).2 →
  ∃ pre,
    (execute s w c).2 = (pre ++ [EvDo req])%list
    ∧ (∀ e, e ∈ pre → ¬ isDo e)
    ∧ EvSign 0 (time_Format_UTC (Now w) time_RFC1123) ∈ pre.
Proof.
  intros Hin.
  destruct (execute_sent s w c req Hin)
    as (rb & ep & req0 & signer & rest & auth & _ & _ & _ & _ & _ & Hreq & _).
  destruct (execute_ending s w c) as [| | |?????? _ _ _ _ _ d req'];
    simpl in Hin |- *.
  - by apply elem_of_nil in Hin.
  - by apply eventsBeforeSign_headers in Hin.
  - apply elem_of_app in Hin as [Hin|Hin]; [by apply eventsBeforeSign_headers in Hin|].
    by apply list_elem_of_singleton in Hin.
  - assert (req = req') as <-.
    { apply elem_of_app in Hin as [Hin|Hin];
        [by apply eventsBeforeSign_headers in Hin|].
      rewrite !elem_of_cons in Hin.
      destruct Hin as [?|[?|[?|[?|[?|Hin]]]]]; try done; [by simplify_eq|].
      by apply elem_of_nil in Hin. }
    exists (eventsBeforeSign w c
            ++ [EvSign 0 d; EvHeaderSet "Authorization" auth0;
                EvHeaderSet "Accept" "*/*";
                EvHeaderSet "User-Agent" "manta-go client API"])%list.
    split_and!.
    + by rewrite <- app_assoc.
    + intros e He. apply elem_of_app in He as [He|He].
      * apply eventsBeforeSign_headers in He. destruct e; simpl in *; tauto.
      * rewrite !elem_of_cons in He.
        destruct He as [->|[->|[->|[->|He]]]]; try (by intros []).
        by apply elem_of_nil in He.
    + apply elem_of_app. right. apply list_elem_of_here.
Qed.

(** When the first signer refuses to sign, nothing is handed to the
    transport; if the call got as far as the signer, it returns the
    signer's error wrapped as "Error signing HTTP request" and the
    invocation of the signer is the last thing it did. *)
Theorem signer_failure_sends_nothing (s : Storage) (w : World) (c : Call)
    (signer : Signer) (rest : list Signer) (err : error) :
  client.Authorizers (Client s) = signer :: rest →
  Sign signer (time_Format_UTC (Now w) time_RFC1123) = failed err →
  (∀ req, EvDo req ∉ (execute s w c).2)
  ∧ (∀ i d, EvSign i d ∈ (execute s w c).2 →
       (execute s w c).1
       = Returned None None (Some (Wrapf "Error signing HTTP request: {{err}}" err))
       ∧ last (execute s w c).2 = Some (EvSign i d)).
Proof.
  intros Hcons Hsign. split.
  - intros req Hin.
    destruct (execute_sent s w c req Hin)
      as (? & ? & ? & signer' & rest' & auth & _ & _ & _ & Hcons' & Hsign' & _).
    rewrite Hcons in Hcons'. injection Hcons' as <- <-. congruence.
  - intros i d Hin.
    destruct (sign_event_shape s w c i d Hin) as (-> & -> & _).
    destruct (execute_ending s w c)
      as [| | signer' rest' err' Hcons' Hsign'
          | ?? ? signer' rest' auth _ _ _ Hcons' Hsign']; simpl in Hin |- *.
    + by apply elem_of_nil in Hin.
    + by apply eventsBeforeSign_headers in Hin.
    + rewrite Hcons in Hcons'. injection Hcons' as <- <-.
      rewrite Hsign in Hsign'. injection Hsign' as <-. by rewrite last_snoc.
    + rewrite Hcons in Hcons'. injection Hcons' as <- <-. congruence.
Qed.

(** A request handed over and a failing transport give the wrapped
    error of the transport. *)
Lemma transport_failure_of_sent (s : Storage) (w : World) (c : Call)
    (req : http.Request) (err : error) :
  EvDo req ∈ (execute s w c).2 →
  client.HTTPClient_Do (Client s) req = failed err →
  (execute s w c).1
  = Returned None None (Some (Wrapf "Error executing HTTP request: {{err}}" err)).
Proof.
  intros Hin Hdo.
  destruct (execute_sent s w c req Hin) as (? & ? & ? & ? & ? & ? & _ & _ & _ & _ & _ & _ & ->).
  by rewrite Hdo.
Qed.

(** When every step before the transport succeeds, the call hands the
    built request to the transport; when the transport fails on it, the
    call returns nil, nil and the transport's error wrapped as "Error
    executing HTTP request". *)
Theorem transport_failure_is_wrapped (s : Storage) (w : World) (c : Call)
    (req0 : http.Request) (auth : string) (err : error) :
  stepsSucceed s w c req0 auth →
  client.HTTPClient_Do (Client s) (builtRequest w c req0 auth) = failed err →
  last (execute s w c).2 = Some (EvDo (builtRequest w c req0 auth))
  ∧ (execute s w c).1
    = Returned None None (Some (Wrapf "Error executing HTTP request: {{err}}" err)).
Proof.
  intros Hsteps Hdo.
  destruct (execute_reaches s w c req0 auth Hsteps) as (_ & _ & Hlast & Hin).
  split; [done|]. by eapply transport_failure_of_sent.
Qed.

Lemma merge_last_writer (l1 l2 : list (string * list string)) (k : string)
    (vs : list string) (v : string) (h0 : Header) :
  last vs = Some v →
  (∀ k' vs', (k', vs') ∈ l2 →
     CanonicalMIMEHeaderKey k' = CanonicalMIMEHeaderKey k → vs' = []) →
  mergeHeaders h0 (l1 ++ (k, vs) :: l2) !! CanonicalMIMEHeaderKey k = Some [v].
Proof.
  intros Hlast Hl2. unfold mergeHeaders. rewrite foldl_app. simpl.
  fold (mergeHeaders (writeValues k (foldl (λ h kv, writeValues kv.1 h kv.2) h0 l1) vs) l2).
  rewrite merge_lookup_untouched by done.
  rewrite lookup_writeValues. rewrite decide_True by done. by rewrite Hlast.
Qed.

(** The caller key visited last, on a request handed over. *)
Lemma last_writer_of_sent (s : Storage) (w : World) (c : Call)
    (h : gmap string (list string)) (req : http.Request)
    (l1 l2 : list (string * list string)) (key : string) (values : list string)
    (value : string) :
  callHeaders c = Some h →
  EvDo req ∈ (execute s w c).2 →
  map_range h = (l1 ++ (key, values) :: l2)%list →
  last values = Some value →
  CanonicalMIMEHeaderKey key ∉ reserved →
  (∀ key' values', (key', values') ∈ l2 →
     CanonicalMIMEHeaderKey key' = CanonicalMIMEHeaderKey key → values' = []) →
  http.Header req !! CanonicalMIMEHeaderKey key = Some [value].
Proof.
  intros Hh Hin Hrange Hlast Hres Hl2.
  destruct (execute_sent s w c req Hin)
    as (rb & ep & req0 & signer & rest & auth & _ & _ & _ & _ & _ & -> & _).
  rewrite outbound_lookup_other by done. rewrite Hh. simpl. rewrite Hrange.
  by apply merge_last_writer.
Qed.

(** When every step before the transport succeeds, the call hands the
    built request to the transport, and on it, among the caller's keys
    that share a canonical name outside the four the executor writes,
    the one the [range] loop visits last wins, and of its values the last
    one: that single value is what the request carries under the
    canonical name. *)
Theorem last_writer_wins (s : Storage) (w : World) (c : Call)
    (h : gmap string (list string)) (req0 : http.Request) (auth : string)
    (l1 l2 : list (string * list string)) (key : string) (values : list string)
    (value : string) :
  callHeaders c = Some h →
  stepsSucceed s w c req0 auth →
  map_range h = (l1 ++ (key, values) :: l2)%list →
  last values = Some value →
  CanonicalMIMEHeaderKey key ∉ reserved →
  (∀ key' values', (key', values') ∈ l2 →
     CanonicalMIMEHeaderKey key' = CanonicalMIMEHeaderKey key → values' = []) →
  last (execute s w c).2 = Some (EvDo (builtRequest w c req0 auth))
  ∧ http.Header (builtRequest w c req0 auth) !! CanonicalMIMEHeaderKey key
    = Some [value].
Proof.
  intros Hh Hsteps Hrange Hlast Hres Hl2.
  destruct (execute_reaches s w c req0 auth Hsteps) as (_ & _ & Hsent & Hin).
  split; [done|]. by eapply last_writer_of_sent.
Qed.

Lemma supplied_or_not (l : list (string * list string)) (K : string) :
  (∃ k vs, (k, vs) ∈ l ∧ CanonicalMIMEHeaderKey k = K ∧ vs ≠ [])
  ∨ (∀ k vs, (k, vs) ∈ l → CanonicalMIMEHeaderKey k = K → vs = []).
Proof.
  induction l as [|[k vs] l [IH|IH]].
  - right. intros k vs Hin. by apply elem_of_nil in Hin.
  - left. destruct IH as (k' & vs' & ? & ? & ?). exists k', vs'.
    split_and!; try done. by apply list_elem_of_further.
  - destruct (decide (CanonicalMIMEHeaderKey k = K)) as [Hk|Hk].
    + destruct vs as [|v vs].
      * right. intros k' vs' Hin Hk'. apply elem_of_cons in Hin as [[= -> ->]|Hin];
          [done|by eapply IH].
      * left. exists k, (v :: vs). split_and!; try done. apply list_elem_of_here.
    + right. intros k' vs' Hin Hk'. apply elem_of_cons in Hin as [[= -> ->]|Hin];
        [done|by eapply IH].
Qed.

Lemma supplied_in_range (headers : option (gmap string (list string))) (K : string) :
  suppliesHeader headers K
  ↔ ∃ k vs, (k, vs) ∈ rangeOf headers ∧ CanonicalMIMEHeaderKey k = K ∧ vs ≠ [].
Proof.
  unfold suppliesHeader. split.
  - intros (h & k & vs & -> & Hl & Hk & Hne). exists k, vs. simpl.
    by rewrite range_elem.
  - intros (k & vs & Hin & Hk & Hne).
    destruct headers as [h|]; simpl in Hin; [|by apply elem_of_nil in Hin].
    apply range_elem in Hin. by exists h, k, vs.
Qed.

Lemma initial_lookup (c : Call) (req0 : http.Request) (K : string) :
  http.Header req0 = ∅ →
  initialHeader c req0 !! K
  = if defaultsContentType c
    then (if decide ("Content-Type" = K) then Some ["application/json"] else None)
    else None.
Proof.
  intros Hh0. unfold initialHeader. rewrite Hh0.
  destruct (defaultsContentType c); [|done].
  rewrite lookup_Header_Set.
  change (CanonicalMIMEHeaderKey "Content-Type") with "Content-Type".
  by case_decide.
Qed.

Lemma defaults_or_supplied (c : Call) :
  hasStructuredBody c →
  defaultsContentType c = true ∨ suppliesHeader (callHeaders c) "Content-Type".
Proof.
  destruct c as [i|i]; simpl; [|done]. intros Hb.
  rewrite bool_decide_true by done. simpl.
  destruct (Headers i) as [h|]; [|by left].
  destruct (String.eqb (Header_Get h "Content-Type") "") eqn:Hget; [by left|].
  right. apply String.eqb_neq in Hget. unfold Header_Get in Hget.
  destruct (h !! CanonicalMIMEHeaderKey "Content-Type") as [[|v vs]|] eqn:Hl; try done.
  by exists h, "Content-Type", (v :: vs).
Qed.

(** The header names of a request handed over. *)
Lemma header_names_of_sent (s : Storage) (w : World) (c : Call)
    (req : http.Request) :
  EvDo req ∈ (execute s w c).2 →
  (∀ K, is_Some (http.Header req !! K)
        ↔ K ∈ reserved
          ∨ (K = "Content-Type" ∧ hasStructuredBody c)
          ∨ suppliesHeader (callHeaders c) K)
  ∧ (∀ K values, http.Header req !! K = Some values → length values = 1%nat).
Proof.
  intros Hin.
  destruct (sent_headers s w c req Hin)
    as (_ & _ & auth' & _ & _ & Hdate & Hauth & Haccept & Hagent).
  destruct (execute_sent s w c req Hin)
    as (rb & ep & req0 & signer & rest & auth & _ & _ & Hreq & _ & _ & Hr & _).
  apply http_NewRequest_ok in Hreq as (Hh0 & _ & _).
  assert (∀ K, K ∈ reserved → ∃ v, http.Header req !! K = Some [v]) as Hreserved.
  { intros K HK. unfold reserved in HK. rewrite !elem_of_cons in HK.
    destruct HK as [->|[->|[->|[->|HK]]]]; eauto. by apply elem_of_nil in HK. }
  assert (∀ K, K ∉ reserved →
    http.Header req !! K
    = mergeHeaders (initialHeader c req0) (rangeOf (callHeaders c)) !! K) as Hother.
  { intros K HK. subst req. by rewrite outbound_lookup_other. }
  assert (∀ K, K ∉ reserved →
    (∃ v, http.Header req !! K = Some [v]
          ∧ ((K = "Content-Type" ∧ hasStructuredBody c)
             ∨ suppliesHeader (callHeaders c) K))
    ∨ (http.Header req !! K = None
       ∧ ¬ (K = "Content-Type" ∧ hasStructuredBody c)
       ∧ ¬ suppliesHeader (callHeaders c) K)) as Hcases.
  { intros K HK. rewrite (Hother K HK).
    destruct (supplied_or_not (rangeOf (callHeaders c)) K) as [Hs|Hn].
    - left.
      destruct (merge_lookup_supplied _ (initialHeader c req0) K Hs)
        as (k & vs & v & _ & _ & _ & ->).
      exists v. split; [done|]. right. by apply supplied_in_range.
    - rewrite merge_lookup_untouched by done. rewrite initial_lookup by done.
      assert (¬ suppliesHeader (callHeaders c) K) as Hns.
      { intros (k & vs & Hkv & Hk & Hne)%supplied_in_range. by apply Hne, (Hn k). }
      destruct (defaultsContentType c) eqn:Hd.
      + case_decide as HK'.
        * left. eexists. split; [done|]. left. split; [done|].
          destruct c as [i|i]; simpl in Hd |- *; [|done].
          apply andb_prop in Hd as [Hb _]. by apply bool_decide_eq_true in Hb.
        * right. split_and!; try done. intros [-> _]. done.
      + right. split_and!; try done. intros [-> Hb].
        destruct (defaults_or_supplied c Hb) as [Hd'|Hs']; [congruence|done]. }
  split.
  - intros K. destruct (decide (K ∈ reserved)) as [HK|HK].
    + destruct (Hreserved K HK) as [v ->]. split; [by left|by eexists].
    + destruct (Hcases K HK) as [(v & -> & Hwhy)|(-> & Hn1 & Hn2)].
      * split; [by right|by eexists].
      * split; [by intros [? ?]|]. intros [?|[?|?]]; done.
  - intros K values Hl. destruct (decide (K ∈ reserved)) as [HK|HK].
    + destruct (Hreserved K HK) as [v Hv]. rewrite Hv in Hl. by injection Hl as <-.
    + destruct (Hcases K HK) as [(v & Hv & _)|(Hv & _)]; rewrite Hv in Hl; [|done].
      by injection Hl as <-.
Qed.

(** When every step before the transport succeeds, the call hands the
    built request to the transport, and the headers of that request are
    the four the executor writes, Content-Type when [executeRequest] has
    a structured body, and the canonical names of the caller's keys that
    hold a value; no other header is on the request, and every header
    holds exactly one value. *)
Theorem outbound_header_names (s : Storage) (w : World) (c : Call)
    (req0 : http.Request) (auth : string) :
  stepsSucceed s w c req0 auth →
  last (execute s w c).2 = Some (EvDo (builtRequest w c req0 auth))
  ∧ (∀ K, is_Some (http.Header (builtRequest w c req0 auth) !! K)
          ↔ K ∈ reserved
            ∨ (K = "Content-Type" ∧ hasStructuredBody c)
            ∨ suppliesHeader (callHeaders c) K)
  ∧ (∀ K values,
       http.Header (builtRequest w c req0 auth) !! K = Some values →
       length values = 1%nat).
Proof.
  intros Hsteps.
  destruct (execute_reaches s w c req0 auth Hsteps) as (_ & _ & Hlast & Hin).
  split; [done|]. exact (header_names_of_sent s w c _ Hin).
Qed.

End MoreProperties.

(** ** Properties of the example program *)

Section ExampleProperties.
Import example.
Context `{JobModel} `{!Outside}.

Lemma forEach_records {A} (l : list A) (ev : A → MainEvent) (st : RunState) :
  forEach l
    (λ x st, (Goes tt, mkRunState (trace st ++ [ev x])%list (deferred st))) st
  = (Goes tt, mkRunState (trace st ++ map ev l)%list (deferred st)).
Proof.
  revert st. induction l as [|x l IH]; intros st; simpl.
  - unfold pure. destruct st. simpl. by rewrite app_nil_r.
  - unfold andThen at 1. rewrite IH. simpl. by rewrite <- app_assoc.
Qed.

(** Runs [main] symbolically, one case per exit. *)
Ltac main_cases :=
  unfold runMain, main;
  cbv beta iota zeta delta [andThen pure record log_Fatalf log_Fatal fmt_Printf
    time_Sleep deferClose calling];
  repeat (simpl;
          rewrite ?forEach_records;
          match goal with
          | |- context [match ioutil_ReadFile ?a with _ => _ end] =>
              destruct (ioutil_ReadFile a) eqn:?
          | |- context [match NewPrivateKeySigner ?a ?b ?c with _ => _ end] =>
              destruct (NewPrivateKeySigner a b c) eqn:?
          | |- context [match storage_NewClient ?a with _ => _ end] =>
              destruct (storage_NewClient a) eqn:?
          | |- context [match Jobs_Create ?a ?b ?c with _ => _ end] =>
              destruct (Jobs_Create a b c) eqn:?
          | |- context [match Jobs_AddInputs ?a ?b ?c with _ => _ end] =>
              destruct (Jobs_AddInputs a b c) eqn:?
          | |- context [match Jobs_Get ?a ?b ?c with _ => _ end] =>
              destruct (Jobs_Get a b c) eqn:?
          | |- context [match Jobs_EndInput ?a ?b ?c with _ => _ end] =>
              destruct (Jobs_EndInput a b c) eqn:?
          | |- context [match Jobs_List ?a ?b with _ => _ end] =>
              destruct (Jobs_List a b) eqn:?
          | |- context [match Jobs_GetInput ?a ?b ?c with _ => _ end] =>
              destruct (Jobs_GetInput a b c) eqn:?
          | |- context [match Jobs_GetOutput ?a ?b ?c with _ => _ end] =>
              destruct (Jobs_GetOutput a b c) eqn:?
          end);
  simpl; rewrite ?forEach_records; simpl.

Lemma apiCalls_app (t1 t2 : list MainEvent) :
  apiCalls (t1 ++ t2) = (apiCalls t1 ++ apiCalls t2)%list.
Proof. apply omap_app. Qed.

Lemma apiCalls_prints {A} (l : list A) (format : A → string) (args : A → list Arg) :
  apiCalls (map (λ x, EvPrintf (format x) (args x)) l) = [].
Proof. by induction l. Qed.

Lemma apiCalls_closes (l : list Stream) : apiCalls (map EvClose l) = [].
Proof. by induction l. Qed.

(** The calls of the jobs API that a run makes are, in order, a prefix
    of the fixed sequence Create, AddInputs, AddInputs, Get, EndInput,
    List, GetInput, GetOutput: no call is skipped, repeated or made out
    of turn. When [main] returns, the run has made all eight. *)
Theorem main_calls_in_order (w : World) :
  map callName (apiCalls (runMain w).2) `prefix_of` callSequence
  ∧ ((runMain w).1 = Returns →
     map callName (apiCalls (runMain w).2) = callSequence).
Proof.
  main_cases.
  all: repeat (rewrite ?apiCalls_app, ?apiCalls_prints, ?apiCalls_closes; simpl).
  all: split; [by eexists|done].
Qed.

Lemma elem_of_prints {A} (l : list A) (format : A → string) (args : A → list Arg)
    (e : MainEvent) :
  e ∈ map (λ x, EvPrintf (format x) (args x)) l → ∃ f a, e = EvPrintf f a.
Proof.
  rewrite list_elem_of_In, in_map_iff. intros (x & <- & _). eauto.
Qed.

(** Splits the membership of an event in the trace of a run into the
    events the trace is made of. *)
Ltac in_trace Hin :=
  repeat match type of Hin with
         | _ ∈ [] => by apply elem_of_nil in Hin
         | _ ∈ _ :: _ => apply elem_of_cons in Hin as [Hin|Hin]; [try discriminate Hin|]
         | _ ∈ (_ ++ _)%list => apply elem_of_app in Hin as [Hin|Hin]
         | _ ∈ map _ _ => apply elem_of_prints in Hin as (? & ? & Hin); try discriminate Hin
         end.


(** When [main] returns, the deferred closes are the last two things the
    run does: the output listing is closed first, the input listing
    second, both are the streams [GetOutput] and [GetInput] returned, and
    nothing is closed before. *)
Theorem main_closes_on_return (w : World) :
  (runMain w).1 = Returns →
  ∃ pre client t1 t2 id gjio gjoo,
    Jobs_GetInput client t1 id = ok gjio
    ∧ Jobs_GetOutput client t2 id = ok gjoo
    ∧ (runMain w).2 = (pre ++ [EvClose (Items gjoo); EvClose (Items gjio)])%list
    ∧ (∀ items, EvClose items ∉ pre).
Proof.
  main_cases; intros Hexit; try discriminate Hexit.
  repeat rewrite ?app_comm_cons, ?app_assoc.
  do 7 eexists. split_and!; [eassumption|eassumption|reflexivity|].
  intros items Hin. in_trace Hin.
Qed.

(** Every call about a job that a run makes, AddInputs, Get, EndInput,
    GetInput and GetOutput alike, names the job that the run's first
    step, the Create call, returned. *)
Theorem main_threads_job_id (w : World) (call : ApiCall) (id : string) :
  EvApi call ∈ (runMain w).2 →
  callJobID call = Some id →
  ∃ client input job,
    head (runMain w).2 = Some (EvApi (Create input))
    ∧ Jobs_Create client [] input = ok job
    ∧ id = JobID job.
Proof.
  main_cases; intros Hin Hid; in_trace Hin.
  all: injection Hin as ->; simpl in Hid.
  all: first [ discriminate Hid
             | injection Hid as <-; do 3 eexists;
               split_and!; [reflexivity|eassumption|reflexivity] ].
Qed.

End ExampleProperties.

(** ** The further properties on the test doubles *)

Section MoreChecks.
Import Mock Scenarios MoreScenarios.

Lemma entry_points_agree_witness :
  execute (storage [signer "k"] 200 idBody) manta (Encode createJobEmpty)
  = execute (storage [signer "k"] 200 idBody) manta
      (NoEncode (asNoEncode createJobEmpty None)).
Proof.
  exact (proj1 (entry_points_agree (storage [signer "k"] 200 idBody) manta
                  createJobEmpty) eq_refl).
Defined.

Lemma nil_error_only_on_success_witness :
  ∃ req resp,
    last (execute (storage [signer "k"] 200 idBody) manta (Encode createJob)).2
    = Some (EvDo req)
    ∧ client.HTTPClient_Do (Client (storage [signer "k"] 200 idBody)) req = ok resp
    ∧ isSuccess (http.StatusCode resp)
    ∧ Some (bytes_NewReader (list_byte_of_string idBody)) = Some (http.RespBody resp)
    ∧ Some (∅ : Header) = http.RespHeader resp.
Proof.
  apply (nil_error_only_on_success (storage [signer "k"] 200 idBody) manta
           (Encode createJob)).
  vm_compute. reflexivity.
Defined.

Lemma returned_error_kinds_witness :
  (∃ m, ServiceError (mkMantaError 409 "Conflict" "x") = ServiceError m
        ∧ ¬ isSuccess (StatusCode m))
  ∨ (∃ format inner,
       ServiceError (mkMantaError 409 "Conflict" "x") = Wrapf format inner
       ∧ format ∈ wrapFormats)
  ∨ (∃ inputs v,
       Encode createJob = Encode inputs ∧ Body inputs = Some v
       ∧ json_MarshalIndent v "" "    "
         = failed (ServiceError (mkMantaError 409 "Conflict" "x"))).
Proof.
  apply (returned_error_kinds (storage [signer "k"] 409 conflictBody) manta
           (Encode createJob) None None).
  vm_compute. reflexivity.
Defined.

Lemma one_request_per_call_witness :
  ∃ pre,
    (execute (storage [signer "k"] 200 idBody) manta (Encode createJob)).2
    = (pre ++ [EvDo createJobRequest])%list
    ∧ (∀ e, e ∈ pre → ¬ isDo e)
    ∧ EvSign 0 (time_Format_UTC (Now manta) time_RFC1123) ∈ pre.
Proof.
  apply (one_request_per_call (storage [signer "k"] 200 idBody) manta
           (Encode createJob) createJobRequest).
  apply sent_last. vm_compute. reflexivity.
Defined.

Lemma signer_failure_sends_nothing_witness :
  (∀ req, EvDo req ∉ (execute refusing manta (Encode createJob)).2)
  ∧ (∀ i d, EvSign i d ∈ (execute refusing manta (Encode createJob)).2 →
       (execute refusing manta (Encode createJob)).1
       = Returned None None
           (Some (Wrapf "Error signing HTTP request: {{err}}"
                    (errorString "agent refused operation")))
       ∧ last (execute refusing manta (Encode createJob)).2 = Some (EvSign i d)).
Proof.
  apply (signer_failure_sends_nothing refusing manta (Encode createJob)
           brokenSigner [signer "k"]); reflexivity.
Defined.

Lemma transport_failure_is_wrapped_witness :
  (last (execute unreachable manta (Encode createJob)).2
   = Some (EvDo (builtRequest manta (Encode createJob) createJobFresh signature))
   ∧ (execute unreachable manta (Encode createJob)).1
     = Returned None None
         (Some (Wrapf "Error executing HTTP request: {{err}}"
                  (errorString "dial tcp: connection refused"))))
  ∧ (last (execute unreachable manta (NoEncode putObject)).2
     = Some (EvDo (builtRequest manta (NoEncode putObject) putObjectFresh signature))
     ∧ (execute unreachable manta (NoEncode putObject)).1
       = Returned None None
           (Some (Wrapf "Error executing HTTP request: {{err}}"
                    (errorString "dial tcp: connection refused")))).
Proof.
  split.
  - apply (transport_failure_is_wrapped unreachable manta (Encode createJob)
             createJobFresh signature).
    + steps_hold (Some (bytes_NewReader (list_byte_of_string "{ name: WordCount }"))).
    + reflexivity.
  - apply (transport_failure_is_wrapped unreachable manta (NoEncode putObject)
             putObjectFresh signature).
    + steps_hold (Some upload).
    + reflexivity.
Defined.

Lemma last_writer_wins_witness :
  (last (execute (storage [signer "k"] 200 idBody) manta (Encode createJobWithIds)).2
   = Some (EvDo (builtRequest manta (Encode createJobWithIds) createJobFresh signature))
   ∧ http.Header (builtRequest manta (Encode createJobWithIds) createJobFresh signature)
     !! CanonicalMIMEHeaderKey "x-request-id" = Some ["42"])
  ∧ (last (execute (storage [signer "k"] 200 idBody) manta (NoEncode putObjectWithIds)).2
     = Some (EvDo (builtRequest manta (NoEncode putObjectWithIds) putObjectFresh
                     signature))
     ∧ http.Header (builtRequest manta (NoEncode putObjectWithIds) putObjectFresh
                      signature)
       !! CanonicalMIMEHeaderKey "x-request-id" = Some ["42"]).
Proof.
  assert (CanonicalMIMEHeaderKey "x-request-id" ∉ reserved) as Hfree.
  { change (CanonicalMIMEHeaderKey "x-request-id") with "X-Request-Id".
    unfold reserved. repeat (apply not_elem_of_cons; split; [done|]).
    apply not_elem_of_nil. }
  split.
  - apply (last_writer_wins (storage [signer "k"] 200 idBody) manta
             (Encode createJobWithIds) requestIds createJobFresh signature
             [] [] "x-request-id" ["41"; "42"] "42").
    + reflexivity.
    + steps_hold (Some (bytes_NewReader (list_byte_of_string "{ name: WordCount }"))).
    + vm_compute. reflexivity.
    + reflexivity.
    + exact Hfree.
    + intros key' values' Hin. by apply elem_of_nil in Hin.
  - apply (last_writer_wins (storage [signer "k"] 200 idBody) manta
             (NoEncode putObjectWithIds) requestIds putObjectFresh signature
             [] [] "x-request-id" ["41"; "42"] "42").
    + reflexivity.
    + steps_hold (Some upload).
    + vm_compute. reflexivity.
    + reflexivity.
    + exact Hfree.
    + intros key' values' Hin. by apply elem_of_nil in Hin.
Defined.

Lemma outbound_header_names_witness :
  (last (execute (storage [signer "k"] 200 idBody) manta (Encode createJobWithIds)).2
   = Some (EvDo (builtRequest manta (Encode createJobWithIds) createJobFresh signature))
   ∧ (∀ K, is_Some (http.Header (builtRequest manta (Encode createJobWithIds)
                                   createJobFresh signature) !! K)
           ↔ K ∈ reserved
             ∨ (K = "Content-Type" ∧ hasStructuredBody (Encode createJobWithIds))
             ∨ suppliesHeader (callHeaders (Encode createJobWithIds)) K)
   ∧ (∀ K values,
        http.Header (builtRequest manta (Encode createJobWithIds) createJobFresh
                       signature) !! K = Some values →
        length values = 1%nat))
  ∧ (last (execute (storage [signer "k"] 200 idBody) manta (NoEncode putObjectWithIds)).2
     = Some (EvDo (builtRequest manta (NoEncode putObjectWithIds) putObjectFresh
                     signature))
     ∧ (∀ K, is_Some (http.Header (builtRequest manta (NoEncode putObjectWithIds)
                                     putObjectFresh signature) !! K)
             ↔ K ∈ reserved
               ∨ (K = "Content-Type" ∧ hasStructuredBody (NoEncode putObjectWithIds))
               ∨ suppliesHeader (callHeaders (NoEncode putObjectWithIds)) K)
     ∧ (∀ K values,
          http.Header (builtRequest manta (NoEncode putObjectWithIds) putObjectFresh
                         signature) !! K = Some values →
          length values = 1%nat)).
Proof.
  split.
  - apply (outbound_header_names (storage [signer "k"] 200 idBody) manta
             (Encode createJobWithIds) createJobFresh signature).
    steps_hold (Some (bytes_NewReader (list_byte_of_string "{ name: WordCount }"))).
  - apply (outbound_header_names (storage [signer "k"] 200 idBody) manta
             (NoEncode putObjectWithIds) putObjectFresh signature).
    steps_hold (Some upload).
Defined.


Lemma main_closes_on_return_witness :
  ∃ pre client t1 t2 id gjio gjoo,
    example.Jobs_GetInput (Outside := service false) client t1 id = ok gjio
    ∧ example.Jobs_GetOutput (Outside := service false) client t2 id = ok gjoo
    ∧ (example.runMain (H0 := service false) shell).2
      = (pre ++ [example.EvClose (example.Items gjoo);
                 example.EvClose (example.Items gjio)])%list
    ∧ (∀ items, example.EvClose items ∉ pre).
Proof.
  apply (main_closes_on_return (H0 := service false) shell).
  vm_compute. reflexivity.
Defined.

Lemma main_threads_job_id_witness :
  ∃ client input job,
    head (example.runMain (H0 := service false) shell).2
    = Some (example.EvApi (example.Create input))
    ∧ example.Jobs_Create (Outside := service false) client [] input = ok job
    ∧ "job-1" = example.JobID job.
Proof.
  apply (main_threads_job_id (H0 := service false) shell
           (example.Get "job-1") "job-1").
  - apply (list_elem_of_lookup_2 _ 4). vm_compute. reflexivity.
  - reflexivity.
Defined.

End MoreChecks.
